(** * Data Sweeper: a shallow embedding of [app.py]

    [app.py] is a Streamlit script: it is executed from top to bottom on every
    user interaction, reads the current value of each widget, and calls into
    pandas for every operation on the table.  The development below embeds

    - the few Python string operations the script uses ([str.lower],
      [os.path.splitext] of [posixpath]),
    - the pandas operations the script calls, over a column-major table with
      dtype-tagged columns and an explicit row index,
    - one execution of the script as a function of the widget values, in a
      small monad that records the elements sent to the page and stops on
      [st.stop()] or on an exception,
    - the CSV text that [to_csv] writes and [read_csv] reads: quoting, the
      states of the tokenizer, the header, the inference of dtypes, and
      the text of a double both ways ([repr] and [precise_xstrtod]).

    The numbers of a float column are IEEE doubles (the primitive floats of
    Rocq): sums and means round, overflow to an infinity, and give NaN for
    [inf - inf], as they do in numpy; the numbers of an integer column are
    integers.  Paths and line ends are those of POSIX. *)

From Stdlib Require Import List String Ascii Bool Arith ZArith QArith Qround Lia Floats.
From Stdlib Require DecimalString.
Import ListNotations.
Open Scope string_scope.
Open Scope list_scope.

Set Implicit Arguments.

(* ================================================================== *)
(** * Python strings *)
(* ================================================================== *)

Module PyStr.

(** [str.lower()], on the ASCII range: bytes outside ['A'..'Z'] are kept. *)
Definition lower_ascii (c : ascii) : ascii :=
  let n := nat_of_ascii c in
  if (65 <=? n)%nat && (n <=? 90)%nat then ascii_of_nat (n + 32) else c.

Fixpoint lower (s : string) : string :=
  match s with
  | EmptyString => EmptyString
  | String c s' => String (lower_ascii c) (lower s')
  end.

(** [s.rfind(c)]: the highest index of [c] in [s], [-1] when there is none.
    [rfind_from i s] scans [s], whose first character has index [i]. *)
Fixpoint rfind_from (c : ascii) (i : Z) (s : string) : Z :=
  match s with
  | EmptyString => (-1)%Z
  | String d s' =>
      let r := rfind_from c (i + 1) s' in
      if (0 <=? r)%Z then r else if Ascii.eqb d c then i else (-1)%Z
  end.

Definition rfind (c : ascii) (s : string) : Z := rfind_from c 0 s.

(** The slices [p[a:b]], [p[:b]] and [p[b:]] for indices in range. *)
Definition slice (p : string) (a b : Z) : string :=
  substring (Z.to_nat a) (Z.to_nat (b - a)) p.

Definition slice_to (p : string) (b : Z) : string := slice p 0 b.

Definition slice_from (p : string) (a : Z) : string :=
  slice p a (Z.of_nat (String.length p)).

(** The loop of [genericpath._splitext] that skips the leading dots of the
    file name: it runs [filenameIndex] from [sepIndex + 1] up to [dotIndex]
    and answers [true] at the first character that is not a dot. *)
Fixpoint has_non_dot (p : string) (filenameIndex : Z) (fuel : nat) : bool :=
  match fuel with
  | O => false
  | S fuel' =>
      if String.eqb (slice p filenameIndex (filenameIndex + 1)) "."
      then has_non_dot p (filenameIndex + 1) fuel'
      else true
  end.

(** [os.path.splitext] of [posixpath]: [sep = '/'], no [altsep],
    [extsep = '.']. *)
Definition splitext (p : string) : string * string :=
  let sepIndex := rfind "/"%char p in
  let dotIndex := rfind "."%char p in
  if (sepIndex <? dotIndex)%Z
     && has_non_dot p (sepIndex + 1) (Z.to_nat (dotIndex - (sepIndex + 1)))
  then (slice_to p dotIndex, slice_from p dotIndex)
  else (p, EmptyString).

(** [str(n)] for an integer. *)
Definition digit_char (d : N) : ascii := ascii_of_N (48 + d).

Fixpoint nat_digits (fuel : nat) (n : N) (acc : string) : string :=
  match fuel with
  | O => acc
  | S fuel' =>
      let acc' := String (digit_char (n mod 10)) acc in
      if (n <? 10)%N then acc' else nat_digits fuel' (n / 10) acc'
  end.

Definition str_N (n : N) : string := nat_digits (S (N.to_nat (N.log2 n))) n EmptyString.

Definition str_Z (z : Z) : string :=
  ((if (z <? 0)%Z then "-" else EmptyString) ++ str_N (Z.abs_N z))%string.

End PyStr.

(* ================================================================== *)
(** * Doubles *)
(* ================================================================== *)

Module Float64.

(** The double nearest to an integer (ties to even), as a C cast or a
    decimal literal of the compiler gives it. *)
Definition of_Z (z : Z) : float := SF2Prim (binary_normalize prec emax z 0 false).

Definition of_nat (n : nat) : float := of_Z (Z.of_nat n).

(** ** Shortest digits *)

Definition pow10 (k : Z) : Q := Qpower 10 k.

(** The decimal exponent of a positive [v]: the [k] with
    [10^(k-1) <= v < 10^k], searched from an estimate. *)
Fixpoint decimal_point (fuel : nat) (v : Q) (k : Z) : Z :=
  match fuel with
  | O => k
  | S fuel' =>
      if Qle_bool (pow10 k) v then decimal_point fuel' v (k + 1)
      else if Qle_bool (pow10 (k - 1)) v then k
      else decimal_point fuel' v (k - 1)
  end.

Definition Qlt_bool (a b : Q) : bool := negb (Qle_bool b a).

(** Whether the decimal [c * 10^t] reads as the double [m * 2^e]: it lies
    between the midpoints to the neighbouring doubles, the midpoints
    themselves included when [m] is even. *)
Definition rounds_to (m : positive) (e : Z) (c : Z) (t : Z) : bool :=
  let v := inject_Z (Zpos m) * Qpower 2 e in
  let up := Qpower 2 e / 2 in
  let down :=
    if (Pos.eqb m (2 ^ 52) && (-1074 <? e)%Z)%bool then Qpower 2 e / 4 else up in
  let d := inject_Z c * pow10 t in
  if Z.even (Zpos m)
  then Qle_bool (v - down) d && Qle_bool d (v + up)
  else Qlt_bool (v - down) d && Qlt_bool d (v + up).

(** The shortest decimal [c * 10^t] that reads as [m * 2^e], the nearest
    one among those of that length: tried with 1, 2, ... digits. *)
Fixpoint shortest (fuel : nat) (p : Z) (m : positive) (e : Z) (k : Z) : Z * Z :=
  let v := inject_Z (Zpos m) * Qpower 2 e in
  let t := (k - p)%Z in
  let s := v / pow10 t in
  let lo := Qfloor s in
  let hi := (lo + 1)%Z in
  let near_lo := Qle_bool (s - inject_Z lo) (inject_Z hi - s) in
  let tie := Qeq_bool (s - inject_Z lo) (inject_Z hi - s) in
  let first := if tie then (if Z.even lo then lo else hi)
               else if near_lo then lo else hi in
  let second := if Z.eqb first lo then hi else lo in
  match fuel with
  | O => (first, t)
  | S fuel' =>
      if rounds_to m e first t then (first, t)
      else if rounds_to m e second t then (second, t)
      else shortest fuel' (p + 1) m e k
  end.

Fixpoint strip_zeros (fuel : nat) (c : Z) (t : Z) : Z * Z :=
  match fuel with
  | O => (c, t)
  | S fuel' =>
      if ((c mod 10 =? 0) && negb (c =? 0))%Z then strip_zeros fuel' (c / 10) (t + 1)
      else (c, t)
  end.

Fixpoint zeros (n : nat) : string :=
  match n with
  | O => EmptyString
  | S n' => String "0" (zeros n')
  end.

(** [repr] of a positive finite double from its digits [ds] and the
    place [decpt] of the point: the exponent form below [1e-4] and from
    [1e16] on. *)
Definition format_short (ds : string) (decpt : Z) : string :=
  let n := Z.of_nat (String.length ds) in
  if ((decpt <=? -4) || (16 <? decpt))%Z then
    let x := (decpt - 1)%Z in
    let xs := PyStr.str_N (Z.abs_N x) in
    (substring 0 1 ds
     ++ (if (1 <? n)%Z then "." ++ substring 1 (String.length ds - 1) ds
         else EmptyString)
     ++ "e" ++ (if (x <? 0)%Z then "-" else "+")
     ++ (if (String.length xs <? 2)%nat then "0" else EmptyString) ++ xs)%string
  else if (decpt <=? 0)%Z then
    ("0." ++ zeros (Z.to_nat (- decpt)) ++ ds)%string
  else if (n <=? decpt)%Z then
    (ds ++ zeros (Z.to_nat (decpt - n)) ++ ".0")%string
  else
    (substring 0 (Z.to_nat decpt) ds ++ "."
     ++ substring (Z.to_nat decpt) (String.length ds - Z.to_nat decpt) ds)%string.

(** [repr(x)] of Python, which is also the text numpy gives a double. *)
Definition repr (x : float) : string :=
  match Prim2SF x with
  | S754_nan => "nan"
  | S754_infinity s => if s then "-inf" else "inf"
  | S754_zero s => if s then "-0.0" else "0.0"
  | S754_finite s m e =>
      let v := inject_Z (Zpos m) * Qpower 2 e in
      let k := decimal_point 700 v (((e + Z.of_nat (Pos.size_nat m)) * 30103) / 100000) in
      let (c0, t0) := shortest 17 1 m e k in
      let (c, t) := strip_zeros 20 c0 t0 in
      let ds := PyStr.str_N (Z.to_N c) in
      ((if s then "-" else EmptyString)
       ++ format_short ds (Z.of_nat (String.length ds) + t))%string
  end.


(** ** Equality

    What [==] of two doubles means on their decoded forms. *)

Definition same_number (a b : spec_float) : Prop :=
  match a, b with
  | S754_zero _, S754_zero _ => True
  | S754_infinity s1, S754_infinity s2 => s1 = s2
  | S754_finite s1 m1 e1, S754_finite s2 m2 e2 => s1 = s2 /\ m1 = m2 /\ e1 = e2
  | _, _ => False
  end.

(** ** Sums

    [pairwise_sum] of numpy, which adds the doubles of a contiguous array:
    one after the other below 8 elements, with 8 running sums up to 128
    elements, and by halves above. *)

Definition add_all (acc : float) (a : list float) : float := fold_left PrimFloat.add a acc.

Fixpoint add_lanes (r a : list float) : list float :=
  match r, a with
  | x :: r', y :: a' => (x + y)%float :: add_lanes r' a'
  | _, _ => r
  end.

(** The loop [for (i = 8; i < n - (n % 8); i += 8)]: every full block of 8
    goes to the running sums; what is left is returned. *)
Fixpoint unrolled (fuel : nat) (r a : list float) : list float * list float :=
  match fuel with
  | O => (r, a)
  | S fuel' =>
      if (8 <=? List.length a)%nat
      then unrolled fuel' (add_lanes r (firstn 8 a)) (skipn 8 a)
      else (r, a)
  end.

Definition lanes_total (r : list float) : float :=
  match r with
  | [r0; r1; r2; r3; r4; r5; r6; r7] =>
      (((r0 + r1) + (r2 + r3)) + ((r4 + r5) + (r6 + r7)))%float
  | _ => 0%float
  end.

Fixpoint pairwise_sum (fuel : nat) (a : list float) : float :=
  let n := List.length a in
  if (n <? 8)%nat then add_all 0%float a
  else if (n <=? 128)%nat then
    let (r, rest) := unrolled n (firstn 8 a) (skipn 8 a) in
    add_all (lanes_total r) rest
  else
    match fuel with
    | O => 0%float
    | S fuel' =>
        let n2 := (n / 2 - (n / 2) mod 8)%nat in
        (pairwise_sum fuel' (firstn n2 a) + pairwise_sum fuel' (skipn n2 a))%float
    end.

(** [np.add.reduce] over the doubles of a column. *)
Definition sum (a : list float) : float := (0 + pairwise_sum (List.length a) a)%float.

End Float64.

(* ================================================================== *)
(** * pandas *)
(* ================================================================== *)

Module Pandas.

(** Exceptions the modelled calls raise. *)
Inductive exn : Type :=
| KeyError (msg : string)
| ValueError (msg : string)
| EmptyDataError (msg : string)
| ParserError (msg : string)
| OtherError (msg : string).

Inductive result (A : Type) : Type :=
| Ok (a : A)
| Raise (e : exn).
Arguments Ok {A} a.
Arguments Raise {A} e.

(** A cell: the missing value, an integer (of an int64 column), a double
    (of a float64 column), a boolean or a text.  The missing value of a
    float column is its NaN: [number] gives the cell of a double. *)
Inductive cell : Type :=
| NaN
| Int (z : Z)
| Num (x : float)
| Bool (b : bool)
| Str (s : string).

Definition number (x : float) : cell := if PrimFloat.is_nan x then NaN else Num x.

Inductive DType : Type := int64 | float64 | bool_ | object.

(** The dtypes [select_dtypes(include=["number"])] keeps. *)
Definition is_number (d : DType) : bool :=
  match d with
  | int64 | float64 => true
  | bool_ | object => false
  end.

Record Series : Type := mkSeries {
  name : string;
  dtype : DType;
  values : list cell
}.

(** A table: the row labels and the columns, in order.  A table without
    columns still has its rows (its index). *)
Record DataFrame : Type := mkDataFrame {
  index : list nat;
  data : list Series
}.

(** [df.columns] *)
Definition columns (df : DataFrame) : list string := map name (data df).

(** [df.empty]: one of the two axes has length 0. *)
Definition empty (df : DataFrame) : bool :=
  match data df, index df with
  | [], _ | _, [] => true
  | _, _ => false
  end.

Definition isna (c : cell) : bool :=
  match c with
  | NaN => true
  | _ => false
  end.

Definition notna (c : cell) : bool := negb (isna c).

(** [df.select_dtypes(include=["number"])] *)
Definition select_dtypes_number (df : DataFrame) : DataFrame :=
  mkDataFrame (index df) (filter (fun s => is_number (dtype s)) (data df)).

(** [df[k]] for one column label.  The labels of the tables the script
    builds are distinct (the readers rename a repeated header), and the
    properties below assume it where they look a column up; with a label
    repeated pandas would return every column that carries it. *)
Definition get_column (df : DataFrame) (k : string) : option Series :=
  find (fun s => String.eqb (name s) k) (data df).

(** [df[keys]] for a list of labels: the named columns in the order of
    [keys], over the same index; a label that is no column raises. *)
Fixpoint get_columns (df : DataFrame) (keys : list string) : result (list Series) :=
  match keys with
  | [] => Ok []
  | k :: keys' =>
      match get_column df k with
      | None => Raise (KeyError k)
      | Some s =>
          match get_columns df keys' with
          | Ok ss => Ok (s :: ss)
          | Raise e => Raise e
          end
      end
  end.

Definition getitem (df : DataFrame) (keys : list string) : result DataFrame :=
  match get_columns df keys with
  | Ok ss => Ok (mkDataFrame (index df) ss)
  | Raise e => Raise e
  end.

(** [df.head()]: the first five rows. *)
Definition head (df : DataFrame) : DataFrame :=
  mkDataFrame (firstn 5 (index df))
    (map (fun s => mkSeries (name s) (dtype s) (firstn 5 (values s))) (data df)).

(** ** Rows and duplicates *)

Definition row : Type := list cell.

(** The first [n] rows of a list of columns; [d] stands where a column is
    too short. *)
Definition transpose (A : Type) (d : A) (n : nat) (cols : list (list A))
  : list (list A) :=
  map (fun i => map (fun v => nth i v d) cols) (seq 0 n).

Definition rows (df : DataFrame) : list row :=
  transpose NaN (List.length (index df)) (map values (data df)).

(** The invariants of a table: a value per row in every column, and no
    label twice. *)
Definition aligned (df : DataFrame) : Prop :=
  Forall (fun s => List.length (values s) = List.length (index df)) (data df).

Definition unique_columns (df : DataFrame) : Prop := NoDup (columns df).

(** Two doubles are the same key of the hash table that finds the
    duplicates: [a == b || (a != a && b != b)]. *)
Definition float_eqb (x y : float) : bool :=
  (PrimFloat.eqb x y || (PrimFloat.is_nan x && PrimFloat.is_nan y))%bool.

(** Two cells are the same value; missing values compare equal, as they do
    when pandas looks for duplicates. *)
Definition cell_eqb (a b : cell) : bool :=
  match a, b with
  | NaN, NaN => true
  | Int x, Int y => Z.eqb x y
  | Num x, Num y => float_eqb x y
  | Bool x, Bool y => Bool.eqb x y
  | Str x, Str y => String.eqb x y
  | _, _ => false
  end.

Fixpoint row_eqb (r1 r2 : row) : bool :=
  match r1, r2 with
  | [], [] => true
  | a :: r1', b :: r2' => cell_eqb a b && row_eqb r1' r2'
  | _, _ => false
  end.

(** [duplicated(keep="first")] over the rows in order: a row is marked when
    it equals one of the rows before it. *)
Fixpoint duplicated_rows (seen rs : list row) : list bool :=
  match rs with
  | [] => []
  | r :: rs' => existsb (row_eqb r) seen :: duplicated_rows (r :: seen) rs'
  end.

Definition duplicated (df : DataFrame) : list bool :=
  if empty df then [] else duplicated_rows [] (rows df).

(** Selection by a boolean mask, [xs[mask]]. *)
Fixpoint mask_filter (A : Type) (mask : list bool) (xs : list A) : list A :=
  match mask, xs with
  | b :: mask', x :: xs' =>
      if b then x :: mask_filter mask' xs' else mask_filter mask' xs'
  | _, _ => []
  end.

Definition getitem_mask (df : DataFrame) (mask : list bool) : DataFrame :=
  mkDataFrame (mask_filter mask (index df))
    (map (fun s => mkSeries (name s) (dtype s) (mask_filter mask (values s)))
       (data df)).

(** [df.drop_duplicates(inplace=True)]: the new contents of [df].  An empty
    frame is returned as it is; otherwise the result is
    [df[~df.duplicated()]], and the row labels are kept. *)
Definition drop_duplicates (df : DataFrame) : DataFrame :=
  if empty df then df else getitem_mask df (map negb (duplicated df)).

(** ** Mean and fillna *)

(** The numbers of a column as doubles, without the missing values
    ([dropna]). *)
Fixpoint present (xs : list cell) : list float :=
  match xs with
  | [] => []
  | Int z :: xs' => Float64.of_Z z :: present xs'
  | Num x :: xs' => x :: present xs'
  | _ :: xs' => present xs'
  end.

(** The numbers of a column as doubles, with 0 in the place of each
    missing value: what [nanops] sums. *)
Definition zero_filled (xs : list cell) : list float :=
  map (fun c => match c with
                | Int z => Float64.of_Z z
                | Num x => x
                | _ => 0%float
                end) xs.

(** [Series.mean()] with [skipna=True], as [nanops.nanmean] computes it:
    the sum of the doubles divided by the number of values present; the
    missing value when none is present.  The quotient is a double: it is
    rounded, it is an infinity when the sum overflows, and it is NaN, the
    missing value again, when the sum is [inf - inf]. *)
Definition mean (xs : list cell) : cell :=
  match present xs with
  | [] => NaN
  | qs => number (Float64.sum (zero_filled xs) / Float64.of_nat (List.length qs))
  end.

(** [df.mean()]: a mean per column label. *)
Definition frame_mean (df : DataFrame) : list (string * cell) :=
  map (fun s => (name s, mean (values s))) (data df).

Fixpoint lookup (k : string) (m : list (string * cell)) : option cell :=
  match m with
  | [] => None
  | (k', v) :: m' => if String.eqb k' k then Some v else lookup k m'
  end.

Definition fill_cell (v c : cell) : cell := if isna c then v else c.

(** [df.fillna(value)] where [value] holds a fill value per column label:
    in a column that has a fill value, every missing cell becomes that
    value (filling with the missing value changes nothing); a column
    without one is kept. *)
Definition fillna (df : DataFrame) (value : list (string * cell)) : DataFrame :=
  mkDataFrame (index df)
    (map (fun s =>
            match lookup (name s) value with
            | Some v => mkSeries (name s) (dtype s) (map (fill_cell v) (values s))
            | None => s
            end)
       (data df)).

(** [df[k] = s]: the column labelled [k] takes the dtype and the values of
    [s] at its place; a new label is appended. *)
Fixpoint set_column_in (cols : list Series) (k : string) (s : Series) : list Series :=
  match cols with
  | [] => [mkSeries k (dtype s) (values s)]
  | c :: cols' =>
      if String.eqb (name c) k
      then mkSeries k (dtype s) (values s) :: cols'
      else c :: set_column_in cols' k s
  end.

Definition set_column (df : DataFrame) (k : string) (s : Series) : DataFrame :=
  mkDataFrame (index df) (set_column_in (data df) k s).

(** [df[keys] = value] for a frame [value]:
    [for k1, k2 in zip(keys, value.columns): df[k1] = value[k2]]. *)
Fixpoint setitem_zip (df : DataFrame) (kk : list (string * string))
    (value : DataFrame) : result DataFrame :=
  match kk with
  | [] => Ok df
  | (k1, k2) :: kk' =>
      match get_column value k2 with
      | None => Raise (KeyError k2)
      | Some s => setitem_zip (set_column df k1 s) kk' value
      end
  end.

Definition setitem (df : DataFrame) (keys : list string) (value : DataFrame)
  : result DataFrame :=
  setitem_zip df (combine keys (columns value)) value.

(** ** Summaries *)

Definition count (xs : list cell) : nat := List.length (filter notna xs).

(** [df.info()]: the number of rows and, per column, its label, its
    non-null count and its dtype. *)
Record info_result : Type := mkInfo {
  info_rows : nat;
  info_columns : list (string * nat * DType)
}.

Definition info (df : DataFrame) : info_result :=
  mkInfo (List.length (index df))
    (map (fun s => (name s, count (values s), dtype s)) (data df)).

(** [df.describe()]: refuses a frame without columns; describes the numeric
    columns when there are some and all the columns otherwise.  Of the
    statistics the label, the count and the mean are kept. *)
Definition describe (df : DataFrame)
  : result (list (string * nat * cell)) :=
  match data df with
  | [] => Raise (ValueError "Cannot describe a DataFrame without columns")
  | _ =>
      let num := select_dtypes_number df in
      let d := match data num with [] => df | _ => num end in
      Ok (map (fun s => (name s, count (values s), mean (values s))) (data d))
  end.

End Pandas.

(* ================================================================== *)
(** * The script *)
(* ================================================================== *)

Module App.

(** The value of [st.file_uploader]: the name, the size in bytes and the
    bytes of the uploaded file.  Every run receives it afresh, so every
    read starts at the first byte. *)
Record UploadedFile : Type := mkUploadedFile {
  name : string;
  size : nat;
  getvalue : string
}.

(** The four pandas readers and writers of the script.  [read_excel] and
    [to_excel] work on the bytes of a workbook and stay parameters;
    [read_csv] and [to_csv] have a model in [Csv] below. *)
Record Backend : Type := mkBackend {
  read_csv : string -> Pandas.result Pandas.DataFrame;
  read_excel : string -> Pandas.result Pandas.DataFrame;
  to_csv : Pandas.DataFrame -> string;
  to_excel : Pandas.DataFrame -> Pandas.result string
}.

(** What the widgets return in one run.  [st.button] is [true] only in the
    run that its click triggered; the other values are kept by Streamlit
    from run to run.  [selected_columns = None] is the multiselect nobody
    touched, which returns its default. *)
Record Widgets : Type := mkWidgets {
  uploaded_file : option UploadedFile;
  selected_columns : option (list string);
  enable_cleaning : bool;
  remove_duplicates_clicked : bool;
  fill_missing_clicked : bool;
  show_summary : bool;
  show_heatmap : bool;
  show_histograms : bool;
  conversion_type : string;
  convert_clicked : bool
}.

Inductive figure : Type :=
| Heatmap (labels : list string)
| Histogram (title : string) (xs : list float) (bins : nat).

(** The elements a run sends to the page, in order.  The page
    configuration, the style sheet and the widgets themselves are not
    listed. *)
Inductive element : Type :=
| st_title (s : string)
| st_write (s : string)
| st_subheader (s : string)
| st_dataframe (df : Pandas.DataFrame)
| st_text (i : Pandas.info_result)
| st_statistics (d : list (string * nat * Pandas.cell))
| st_success (s : string)
| st_warning (s : string)
| st_error (s : string)
| st_info (s : string)
| st_pyplot (f : figure)
| st_download_button (label data file_name mime : string).

(** How a run, or a part of it, ends: normally with a value, by
    [st.stop()], or by an uncaught exception (which Streamlit shows in
    place of the rest of the page). *)
Inductive status (A : Type) : Type :=
| Done (a : A)
| Stopped
| Failed (e : Pandas.exn).
Arguments Done {A} a.
Arguments Stopped {A}.
Arguments Failed {A} e.

Definition M (A : Type) : Type := (list element * status A)%type.

Definition ret (A : Type) (a : A) : M A := ([], Done a).

Definition bind (A B : Type) (c : M A) (k : A -> M B) : M B :=
  match c with
  | (out, Done a) => let (out', r) := k a in (out ++ out', r)
  | (out, Stopped) => (out, Stopped)
  | (out, Failed e) => (out, Failed e)
  end.

Definition emit (e : element) : M unit := ([e], Done tt).

Definition stop (A : Type) : M A := ([], Stopped).

Definition lift (A : Type) (r : Pandas.result A) : M A :=
  match r with
  | Pandas.Ok a => ([], Done a)
  | Pandas.Raise e => ([], Failed e)
  end.

Notation "x <- c ;; k" := (bind c (fun x => k))
  (at level 61, c at next level, right associativity).
Notation "c ;;; k" := (bind c (fun _ => k))
  (at level 61, right associativity).

(** ** Formatting of the file size *)

Definition digits (n : nat) : string :=
  DecimalString.NilZero.string_of_uint (Nat.to_uint n).

(** [f"{size / 1024:.2f}"]: the number of hundredths of a KB, rounded to
    the nearest with ties to even ([size / 1024] is exact in binary), then
    written with two decimals. *)
Definition hundredths (size : nat) : nat :=
  let q := (size * 100 / 1024)%nat in
  let r := (size * 100 mod 1024)%nat in
  if (r <? 512)%nat then q
  else if (512 <? r)%nat then S q
  else if Nat.even q then q else S q.

Definition format_kb (size : nat) : string :=
  let h := hundredths size in
  let frac := (h mod 100)%nat in
  (digits (h / 100) ++ "."
   ++ (if (frac <? 10)%nat then "0" else "") ++ digits frac)%string.

Section Script.

Variable pd : Backend.

Definition header : M unit :=
  emit (st_title "📊 Data Sweeper - Intelligent Data Processor") ;;;
  emit (st_write "Easily clean, analyze, and transform your data files with automated features.").

(** Lines 53-62: the format is chosen by the lower-cased extension. *)
Definition file_extension (f : UploadedFile) : string :=
  PyStr.lower (snd (PyStr.splitext (name f))).

Definition ingest (f : UploadedFile) : M Pandas.DataFrame :=
  if String.eqb (file_extension f) ".csv" then lift (read_csv pd (getvalue f))
  else if String.eqb (file_extension f) ".xlsx" then lift (read_excel pd (getvalue f))
  else
    emit (st_error ("❌ Unsupported file type: " ++ file_extension f)%string) ;;;
    stop Pandas.DataFrame.

(** Lines 65-66. *)
Definition metadata (f : UploadedFile) : M unit :=
  emit (st_write ("**📄 File Name:** " ++ name f)%string) ;;;
  emit (st_write ("**📏 File Size:** " ++ format_kb (size f) ++ " KB")%string).

(** Lines 71-77: [st.multiselect(..., df.columns, default=df.columns)] and
    [df = df[selected_columns]]. *)
Definition multiselect (w : Widgets) (df : Pandas.DataFrame) : list string :=
  match selected_columns w with
  | Some sel => sel
  | None => Pandas.columns df
  end.

Definition column_selection (w : Widgets) (df : Pandas.DataFrame)
  : M Pandas.DataFrame :=
  emit (st_subheader "📌 Dynamic Column Selection") ;;;
  df' <- lift (Pandas.getitem df (multiselect w df)) ;;
  emit (st_write "🔍 **Updated Data Preview:**") ;;;
  emit (st_dataframe (Pandas.head df')) ;;;
  ret df'.

(** Lines 96-97:
    [numeric_cols = df.select_dtypes(include=["number"]).columns] and
    [df[numeric_cols] = df[numeric_cols].fillna(df[numeric_cols].mean())]. *)
Definition fill_missing_mean (df : Pandas.DataFrame)
  : Pandas.result Pandas.DataFrame :=
  let numeric_cols := Pandas.columns (Pandas.select_dtypes_number df) in
  match Pandas.getitem df numeric_cols with
  | Pandas.Raise e => Pandas.Raise e
  | Pandas.Ok sub =>
      Pandas.setitem df numeric_cols (Pandas.fillna sub (Pandas.frame_mean sub))
  end.

(** What lines 96-97 come to for one column: a numeric column has its
    missing values replaced by its own mean, another column is kept
    (see [fill_missing_mean_by_column]). *)
Definition fill_column (s : Pandas.Series) : Pandas.Series :=
  if Pandas.is_number (Pandas.dtype s)
  then Pandas.mkSeries (Pandas.name s) (Pandas.dtype s)
         (map (Pandas.fill_cell (Pandas.mean (Pandas.values s))) (Pandas.values s))
  else s.

(** Lines 82-98. *)
Definition cleaning (w : Widgets) (df : Pandas.DataFrame) : M Pandas.DataFrame :=
  emit (st_subheader "🛠️ Data Cleaning Options") ;;;
  if enable_cleaning w then
    df1 <- (if remove_duplicates_clicked w then
              emit (st_success "✔ Duplicates removed successfully!") ;;;
              ret (Pandas.drop_duplicates df)
            else ret df) ;;
    if fill_missing_clicked w then
      df2 <- lift (fill_missing_mean df1) ;;
      emit (st_success "✔ Missing values filled with column means!") ;;;
      ret df2
    else ret df1
  else ret df.

(** Lines 105-113. *)
Definition summary_statistics (df : Pandas.DataFrame) : M unit :=
  emit (st_write "**📊 Dataset Information:**") ;;;
  emit (st_text (Pandas.info df)) ;;;
  emit (st_write "**📈 Summary Statistics:**") ;;;
  d <- lift (Pandas.describe df) ;;
  emit (st_statistics d).

(** Lines 116-123. *)
Definition correlation_heatmap (df : Pandas.DataFrame) : M unit :=
  let numeric_data := Pandas.select_dtypes_number df in
  if Pandas.empty numeric_data then
    emit (st_warning "⚠ No numeric columns available for correlation heatmap.")
  else emit (st_pyplot (Heatmap (Pandas.columns numeric_data))).

(** [ax.hist(x, bins=20)]: matplotlib takes the least and the greatest
    value of [x] as the range of the bins and numpy refuses a range that is
    not finite; no value at all is a figure without bars. *)
Definition hist (title : string) (xs : list float) : Pandas.result figure :=
  match xs with
  | [] => Pandas.Ok (Histogram title xs 20)
  | x :: xs' =>
      let xmin := fold_left (fun a b => if PrimFloat.ltb b a then b else a) xs' x in
      let xmax := fold_left (fun a b => if PrimFloat.ltb a b then b else a) xs' x in
      if (PrimFloat.is_finite xmin && PrimFloat.is_finite xmax)%bool
      then Pandas.Ok (Histogram title xs 20)
      else Pandas.Raise
             (Pandas.ValueError
                ("supplied range of [" ++ Float64.repr xmin ++ ", "
                 ++ Float64.repr xmax ++ "] is not finite")%string)
  end.

(** Lines 131-135: one figure per numeric column, over its present
    values, until a column cannot be drawn. *)
Fixpoint plot_histograms (cols : list Pandas.Series) : M unit :=
  match cols with
  | [] => ret tt
  | s :: cols' =>
      fig <- lift (hist ("Distribution of " ++ Pandas.name s)%string
                     (Pandas.present (Pandas.values s))) ;;
      emit (st_pyplot fig) ;;;
      plot_histograms cols'
  end.

(** Lines 126-135. *)
Definition histograms (df : Pandas.DataFrame) : M unit :=
  let numeric_data := Pandas.select_dtypes_number df in
  if Pandas.empty numeric_data then
    emit (st_warning "⚠ No numeric columns available for histogram plotting.")
  else plot_histograms (Pandas.data numeric_data).

(** Lines 103-135. *)
Definition exploration (w : Widgets) (df : Pandas.DataFrame) : M unit :=
  emit (st_subheader "🔎 Data Exploration") ;;;
  (if show_summary w then summary_statistics df else ret tt) ;;;
  (if show_heatmap w then correlation_heatmap df else ret tt) ;;;
  (if show_histograms w then histograms df else ret tt).

Definition mime_csv : string := "text/csv".
Definition mime_xlsx : string :=
  "application/vnd.openxmlformats-officedocument.spreadsheetml.sheet".

(** Line 159: [f"processed_data.{conversion_type.lower()}"]. *)
Definition download_file_name (conversion_type : string) : string :=
  ("processed_data." ++ PyStr.lower conversion_type)%string.

(** Lines 144-161. *)
Definition convert_and_download (conversion_type : string)
    (df : Pandas.DataFrame) : M unit :=
  buffer_mime <-
    (if String.eqb conversion_type "CSV" then ret (to_csv pd df, mime_csv)
     else
       bytes <- lift (to_excel pd df) ;;
       ret (bytes, mime_xlsx)) ;;
  emit (st_download_button ("📥 Download as " ++ conversion_type)%string
          (fst buffer_mime) (download_file_name conversion_type)
          (snd buffer_mime)).

(** Lines 140-161. *)
Definition export (w : Widgets) (df : Pandas.DataFrame) : M unit :=
  emit (st_subheader "🔄 Export & Convert Data") ;;;
  if convert_clicked w then convert_and_download (conversion_type w) df
  else ret tt.

(** The working table of a run, up to the end of the cleaning section. *)
Definition working_table (w : Widgets) (f : UploadedFile) : M Pandas.DataFrame :=
  df <- ingest f ;;
  metadata f ;;;
  df <- column_selection w df ;;
  cleaning w df.

(** One run of the script.  Its value is the table bound to [df] when the
    run ends, [None] when no file is uploaded. *)
Definition run (w : Widgets) : M (option Pandas.DataFrame) :=
  header ;;;
  match uploaded_file w with
  | Some f =>
      df <- working_table w f ;;
      exploration w df ;;;
      export w df ;;;
      emit (st_success "✅ All operations completed successfully!") ;;;
      ret (Some df)
  | None =>
      emit (st_info "📂 Please upload a CSV or Excel file to begin.") ;;;
      ret None
  end.

End Script.

End App.

(* ================================================================== *)
(** * CSV text: [DataFrame.to_csv] and [read_csv] *)
(* ================================================================== *)

Module Csv.

Import Pandas.

Definition LF : ascii := "010"%char.
Definition CR : ascii := "013"%char.
Definition TAB : ascii := "009"%char.
Definition SPACE : ascii := " "%char.
Definition COMMA : ascii := ","%char.
Definition QUOTE : ascii := "034"%char.

(** ** Numbers as text *)

Definition digit_of (c : ascii) : option N :=
  let n := N_of_ascii c in
  if ((48 <=? n) && (n <=? 57))%N then Some (n - 48)%N else None.

Definition isspace (c : ascii) : bool :=
  let n := N_of_ascii c in ((n =? 32) || ((9 <=? n) && (n <=? 13)))%N.

Fixpoint lstrip (s : string) : string :=
  match s with
  | String c s' => if isspace c then lstrip s' else s
  | EmptyString => EmptyString
  end.

Fixpoint rstrip (s : string) : string :=
  match s with
  | String c s' =>
      match rstrip s' with
      | EmptyString => if isspace c then EmptyString else String c EmptyString
      | t => String c t
      end
  | EmptyString => EmptyString
  end.

(** A leading sign: whether it is a minus, and the rest. *)
Definition read_sign (s : string) : bool * string :=
  match s with
  | String "-" s' => (true, s')
  | String "+" s' => (false, s')
  | _ => (false, s)
  end.

(** The longest prefix of digits: its value on top of [acc], how many
    digits it has, and the rest. *)
Fixpoint read_digits (acc : N) (count : nat) (s : string) : N * nat * string :=
  match s with
  | String c s' =>
      match digit_of c with
      | Some d => read_digits (10 * acc + d) (S count) s'
      | None => (acc, count, s)
      end
  | EmptyString => (acc, count, s)
  end.

(** An integer literal: blanks, a sign, digits, blanks.  (The range of
    int64 is not checked.) *)
Definition atoi (s : string) : option Z :=
  let (neg, s1) := read_sign (rstrip (lstrip s)) in
  match read_digits 0 0 s1 with
  | (_, O, _) => None
  | (n, _, EmptyString) => Some (if neg then (- Z.of_N n)%Z else Z.of_N n)
  | _ => None
  end.

(** The reader of doubles of the C parser, [precise_xstrtod]: at most
    [max_digits] digits make up [number], one multiplication and one
    addition of doubles per digit; a further digit before the point counts
    for the exponent, a further digit after it is dropped; at the end
    [number] is multiplied or divided by a power of ten. *)
Definition max_digits : nat := 17.

Definition of_digit (d : N) : float := Float64.of_Z (Z.of_N d).

Fixpoint integer_part (number : float) (num_digits : nat) (exponent : Z)
    (s : string) : float * nat * Z * string :=
  match s with
  | String c s' =>
      match digit_of c with
      | Some d =>
          if (num_digits <? max_digits)%nat
          then integer_part (number * 10 + of_digit d)%float (S num_digits) exponent s'
          else integer_part number num_digits (exponent + 1) s'
      | None => (number, num_digits, exponent, s)
      end
  | EmptyString => (number, num_digits, exponent, s)
  end.

Fixpoint decimal_part (number : float) (num_digits : nat) (num_decimals : Z)
    (s : string) : float * nat * Z * string :=
  match s with
  | String c s' =>
      match digit_of c with
      | Some d =>
          if (num_digits <? max_digits)%nat
          then decimal_part (number * 10 + of_digit d)%float (S num_digits)
                 (num_decimals + 1) s'
          else decimal_part number num_digits num_decimals s'
      | None => (number, num_digits, num_decimals, s)
      end
  | EmptyString => (number, num_digits, num_decimals, s)
  end.

(** The digits after [e]: the loop stops after [max_digits] of them. *)
Fixpoint exponent_digits (n : Z) (num_digits : nat) (s : string)
  : Z * nat * string :=
  match s with
  | String c s' =>
      match digit_of c with
      | Some d =>
          if (num_digits <? max_digits)%nat
          then exponent_digits (10 * n + Z.of_N d) (S num_digits) s'
          else (n, num_digits, s)
      | None => (n, num_digits, s)
      end
  | EmptyString => (n, num_digits, s)
  end.

(** The table [e] of the powers of ten from [1e0] to [1e308]. *)
Definition e (k : Z) : float := Float64.of_Z (10 ^ k).

(** The last step: an exponent above 308 and a result that is an infinity
    are range errors. *)
Definition scale (number : float) (exponent : Z) : option float :=
  if (308 <? exponent)%Z then None
  else
    let r :=
      if (0 <? exponent)%Z then (number * e exponent)%float
      else if (exponent <? -308)%Z then
        if (exponent <? -616)%Z then 0%float
        else (number / e (-308 - exponent) / e 308)%float
      else (number / e (- exponent))%float in
    if PrimFloat.is_infinity r then None else Some r.

Definition precise_xstrtod (s : string) : option float :=
  let (negative, s1) := read_sign (lstrip s) in
  let '(number, num_digits, exponent, s2) := integer_part 0%float 0 0 s1 in
  let '(number, num_digits, exponent, s3) :=
    match s2 with
    | String "." t =>
        let '(x, nd, num_decimals, t') := decimal_part number num_digits 0 t in
        (x, nd, (exponent - num_decimals)%Z, t')
    | _ => (number, num_digits, exponent, s2)
    end in
  match num_digits with
  | O => None
  | _ =>
      let number := if negative then (- number)%float else number in
      let (exponent, s4) :=
        match s3 with
        | String c t =>
            if (Ascii.eqb c "e" || Ascii.eqb c "E")%bool then
              let (eneg, t1) := read_sign t in
              let '(n, nd, t2) := exponent_digits 0 0 t1 in
              match nd with
              | O => (exponent, s3)
              | _ => ((if eneg then exponent - n else exponent + n)%Z, t2)
              end
            else (exponent, s3)
        | EmptyString => (exponent, s3)
        end in
      match scale number exponent with
      | None => None
      | Some x => if String.eqb (lstrip s4) EmptyString then Some x else None
      end
  end.

(** One token as a double: [precise_xstrtod], and when it fails the names
    of the infinities, in any case. *)
Definition atof (t : string) : option float :=
  match precise_xstrtod t with
  | Some x => Some x
  | None =>
      let w := PyStr.lower t in
      if existsb (String.eqb w) ["inf"; "+inf"; "infinity"; "+infinity"]
      then Some infinity
      else if existsb (String.eqb w) ["-inf"; "-infinity"]
      then Some neg_infinity
      else None
  end.

(** ** Writing *)

(** [QUOTE_MINIMAL] of the [csv] module with the line terminator of
    [to_csv] on POSIX: a field is quoted when it holds the delimiter, the
    quote character or a character of the line terminator. *)
Definition special (c : ascii) : bool :=
  (Ascii.eqb c COMMA || Ascii.eqb c QUOTE || Ascii.eqb c LF)%bool.

Definition needs_quote (f : string) : bool := existsb special (list_ascii_of_string f).

Fixpoint double_quotes (f : string) : string :=
  match f with
  | EmptyString => EmptyString
  | String c f' =>
      if Ascii.eqb c QUOTE then String QUOTE (String QUOTE (double_quotes f'))
      else String c (double_quotes f')
  end.

Definition quoted (f : string) : string :=
  String QUOTE (double_quotes f ++ String QUOTE EmptyString).

Definition write_field (f : string) : string :=
  if needs_quote f then quoted f else f.

Fixpoint join_fields (fs : list string) : string :=
  match fs with
  | [] => EmptyString
  | [f] => write_field f
  | f :: fs' => (write_field f ++ String COMMA (join_fields fs'))%string
  end.

(** [writer.writerow]: a record of one empty field is written as a pair
    of quotes, a record without fields as an empty line. *)
Definition write_row (fs : list string) : string :=
  match fs with
  | [EmptyString] => quoted EmptyString ++ String LF EmptyString
  | _ => join_fields fs ++ String LF EmptyString
  end.

Fixpoint write_rows (recs : list (list string)) : string :=
  match recs with
  | [] => EmptyString
  | fs :: recs' => (write_row fs ++ write_rows recs')%string
  end.

(** The text of a cell: [na_rep] is the empty text, an integer is written
    by [str] and a double by [repr]. *)
Definition cell_text (c : cell) : string :=
  match c with
  | NaN => EmptyString
  | Int z => PyStr.str_Z z
  | Num x => Float64.repr x
  | Bool true => "True"
  | Bool false => "False"
  | Str s => s
  end.

Definition column_text (s : Series) : list string :=
  map cell_text (values s).

(** [df.to_csv(buffer, index=False)]: the header, then the rows. *)
Definition to_csv (df : DataFrame) : string :=
  write_rows
    (columns df
     :: transpose EmptyString (List.length (index df)) (map column_text (data df))).

(** ** Tokenizing

    The states of the tokenizer of the C parser that the default options
    reach.  [word] is the field being read, [fields] the fields of the line
    being read, [lines] the lines read; in [WHITESPACE_LINE], [word] holds
    the blanks read so far, which start a field if the line turns out not
    to be blank. *)

Inductive state : Type :=
| START_RECORD
| START_FIELD
| IN_FIELD
| IN_QUOTED_FIELD
| QUOTE_IN_QUOTED_FIELD
| EAT_CRNL
| EAT_CRNL_NOP
| WHITESPACE_LINE.

Record parser : Type := mkParser {
  st : state;
  word : string;
  fields : list string;
  lines : list (list string)
}.

Definition set_state (p : parser) (s : state) : parser :=
  mkParser s (word p) (fields p) (lines p).

Definition push_char (p : parser) (c : ascii) : parser :=
  mkParser (st p) (word p ++ String c EmptyString) (fields p) (lines p).

Definition end_field (p : parser) : parser :=
  mkParser (st p) EmptyString (fields p ++ [word p]) (lines p).

Definition end_line (p : parser) : parser :=
  mkParser START_RECORD EmptyString [] (lines p ++ [fields p]).

Definition is_blank (c : ascii) : bool := (Ascii.eqb c SPACE || Ascii.eqb c TAB)%bool.

Definition step_in_field (p : parser) (c : ascii) : parser :=
  if Ascii.eqb c LF then end_line (end_field p)
  else if Ascii.eqb c CR then set_state (end_field p) EAT_CRNL
  else if Ascii.eqb c COMMA then set_state (end_field p) START_FIELD
  else set_state (push_char p c) IN_FIELD.

Definition step_start_field (p : parser) (c : ascii) : parser :=
  if Ascii.eqb c QUOTE then set_state p IN_QUOTED_FIELD
  else step_in_field p c.

Definition step_start_record (p : parser) (c : ascii) : parser :=
  if Ascii.eqb c LF then set_state p START_RECORD
  else if Ascii.eqb c CR then set_state p EAT_CRNL_NOP
  else if is_blank c then set_state (push_char p c) WHITESPACE_LINE
  else step_start_field p c.

Definition step (p : parser) (c : ascii) : parser :=
  match st p with
  | START_RECORD => step_start_record p c
  | START_FIELD => step_start_field p c
  | IN_FIELD => step_in_field p c
  | IN_QUOTED_FIELD =>
      if Ascii.eqb c QUOTE then set_state p QUOTE_IN_QUOTED_FIELD
      else push_char p c
  | QUOTE_IN_QUOTED_FIELD =>
      if Ascii.eqb c QUOTE then set_state (push_char p c) IN_QUOTED_FIELD
      else step_in_field p c
  | EAT_CRNL =>
      if Ascii.eqb c LF then end_line p
      else if Ascii.eqb c COMMA then set_state (end_field (end_line p)) START_FIELD
      else step_start_record (end_line p) c
  | EAT_CRNL_NOP =>
      if Ascii.eqb c LF then set_state p START_RECORD
      else step_start_record (set_state p START_RECORD) c
  | WHITESPACE_LINE =>
      if Ascii.eqb c LF then mkParser START_RECORD EmptyString (fields p) (lines p)
      else if Ascii.eqb c CR then mkParser EAT_CRNL_NOP EmptyString (fields p) (lines p)
      else if is_blank c then push_char p c
      else step_in_field p c
  end.

Fixpoint feed (p : parser) (s : string) : parser :=
  match s with
  | EmptyString => p
  | String c s' => feed (step p c) s'
  end.

(** The end of the data closes the line being read; inside a quoted field
    it is an error. *)
Definition handle_eof (p : parser) : result (list (list string)) :=
  match st p with
  | START_RECORD | WHITESPACE_LINE | EAT_CRNL_NOP => Ok (lines p)
  | IN_QUOTED_FIELD =>
      Raise (ParserError "Error tokenizing data. C error: EOF inside string")
  | IN_FIELD | START_FIELD | QUOTE_IN_QUOTED_FIELD =>
      Ok (lines (end_line (end_field p)))
  | EAT_CRNL => Ok (lines (end_line p))
  end.

Definition tokenize (s : string) : result (list (list string)) :=
  handle_eof (feed (mkParser START_RECORD EmptyString [] []) s).

(** ** Reading *)

(** The default missing-value markers of [read_csv]. *)
Definition na_values : list string :=
  [EmptyString; "#N/A"; "#N/A N/A"; "#NA"; "-1.#IND"; "-1.#QNAN"; "-NaN";
   "-nan"; "1.#IND"; "1.#QNAN"; "<NA>"; "N/A"; "NA"; "NULL"; "NaN"; "None";
   "n/a"; "nan"; "null"].

Definition true_values : list string := ["True"; "TRUE"; "true"].
Definition false_values : list string := ["False"; "FALSE"; "false"].

Definition mem (t : string) (l : list string) : bool := existsb (String.eqb t) l.

Definition is_na (t : string) : bool := mem t na_values.

Definition atob (t : string) : option bool :=
  if mem t true_values then Some true
  else if mem t false_values then Some false
  else None.

Definition is_some (A : Type) (o : option A) : bool :=
  match o with
  | Some _ => true
  | None => false
  end.

(** The values of a column from its tokens, by the first conversion that
    accepts them all: integers (no missing value allowed), floats,
    booleans (an object column when a value is missing), and texts.  A
    column without rows is an object column. *)
Definition int_cell (t : string) : cell :=
  match atoi t with
  | Some z => Int z
  | None => NaN
  end.

Definition float_cell (t : string) : cell :=
  if is_na t then NaN
  else match atof t with
       | Some x => Num x
       | None => NaN
       end.

Definition bool_cell (t : string) : cell :=
  if is_na t then NaN
  else match atob t with
       | Some b => Bool b
       | None => NaN
       end.

Definition text_cell (t : string) : cell := if is_na t then NaN else Str t.

Definition infer_column (label : string) (tokens : list string) : Series :=
  match tokens with
  | [] => mkSeries label object []
  | _ =>
      if forallb (fun t => is_some (atoi t)) tokens
      then mkSeries label int64 (map int_cell tokens)
      else if forallb (fun t => is_na t || is_some (atof t)) tokens
      then mkSeries label float64 (map float_cell tokens)
      else if forallb (fun t => is_na t || is_some (atob t)) tokens
      then mkSeries label (if existsb is_na tokens then object else bool_)
             (map bool_cell tokens)
      else mkSeries label object (map text_cell tokens)
  end.

(** The names of the columns from the header line: an empty name becomes
    [Unnamed: i], and a name seen before gets a numbered suffix
    ([counts] holds how often each name was given out). *)
Fixpoint counts_get (counts : list (string * nat)) (k : string) : nat :=
  match counts with
  | [] => O
  | (k', n) :: counts' => if String.eqb k' k then n else counts_get counts' k
  end.

Definition counts_set (counts : list (string * nat)) (k : string) (n : nat)
  : list (string * nat) := (k, n) :: counts.

Fixpoint name_unnamed (i : nat) (names : list string) : list string :=
  match names with
  | [] => []
  | h :: names' =>
      (if String.eqb h EmptyString
       then ("Unnamed: " ++ PyStr.str_N (N.of_nat i))%string else h)
      :: name_unnamed (S i) names'
  end.

(** The places of the header that hold no name. *)
Fixpoint unnamed_indices (i : nat) (names : list string) : list nat :=
  match names with
  | [] => []
  | h :: names' =>
      (if String.eqb h EmptyString then [i] else []) ++ unnamed_indices (S i) names'
  end.

(** [this_header[i] = col] *)
Fixpoint set_nth (i : nat) (col : string) (this_header : list string) : list string :=
  match this_header, i with
  | [], _ => []
  | _ :: rest, O => col :: rest
  | h :: rest, S i' => h :: set_nth i' col rest
  end.

(** The loop [while cur_count > 0] of the de-duplication of one name: the
    suffix is the count of the name, and one more as long as the suffixed
    name is a name of the header. *)
Fixpoint dedup_name (fuel : nat) (this_header : list string)
    (counts : list (string * nat)) (old_col col : string) (cur_count : nat)
  : string * nat * list (string * nat) :=
  match fuel, cur_count with
  | S fuel', S _ =>
      let counts' := counts_set counts old_col (S cur_count) in
      let col' := (old_col ++ "." ++ PyStr.str_N (N.of_nat cur_count))%string in
      dedup_name fuel' this_header counts' old_col col'
        (if existsb (String.eqb col') this_header then S cur_count
         else counts_get counts' col')
  | _, _ => (col, cur_count, counts)
  end.

(** The loop [for i in col_loop_order], which renames in place. *)
Fixpoint dedup_names (fuel : nat) (col_loop_order : list nat)
    (this_header : list string) (counts : list (string * nat)) : list string :=
  match col_loop_order with
  | [] => this_header
  | i :: order' =>
      let col := nth i this_header EmptyString in
      let '(col', cur_count, counts') :=
        dedup_name fuel this_header counts col col (counts_get counts col) in
      dedup_names fuel order' (set_nth i col' this_header)
        (counts_set counts' col' (S cur_count))
  end.

(** The names given in the header are dealt with before the names made up
    for the empty places. *)
Definition header_names (line : list string) : list string :=
  let this_header := name_unnamed 0 line in
  let unnamed := unnamed_indices 0 line in
  let col_loop_order :=
    filter (fun i => negb (existsb (Nat.eqb i) unnamed)) (seq 0 (List.length line))
    ++ unnamed in
  dedup_names (S (List.length line)) col_loop_order this_header [].

(** The [j]-th field of every line; a short line is completed with empty
    fields. *)
Definition column_tokens (rows : list (list string)) (j : nat) : list string :=
  map (fun line => nth j line EmptyString) rows.

Fixpoint infer_columns (j : nat) (names : list string)
    (rows : list (list string)) : list Series :=
  match names with
  | [] => []
  | label :: names' =>
      infer_column label (column_tokens rows j) :: infer_columns (S j) names' rows
  end.

(** [pd.read_csv(text)] with the default options: the first line that is
    not blank is the header; the rows are numbered from 0.  A line longer
    than the header is an error (when it is the first row pandas would
    take its first field as the row label instead: the embedding has no
    labelled index and reports the error of the later rows). *)
Definition read_csv (text : string) : result DataFrame :=
  match tokenize text with
  | Raise e => Raise e
  | Ok [] => Raise (EmptyDataError "No columns to parse from file")
  | Ok (header :: rows) =>
      let n := List.length header in
      if existsb (fun line => (n <? List.length line)%nat) rows
      then Raise (ParserError "Error tokenizing data. C error: Expected fewer fields")
      else Ok (mkDataFrame (seq 0 (List.length rows))
                 (infer_columns 0 (header_names header) rows))
  end.

(** ** Tables that a CSV text can carry

    The conditions under which the text written for a table reads back as
    that table.  They are those of a table that came out of [read_csv]. *)

















End Csv.

(* ================================================================== *)
(** * Example inputs *)
(* ================================================================== *)

Module Examples.

Import Pandas.

(** A backend for the examples: CSV through [Csv]; the workbook side is not
    exercised and is a placeholder. *)
Definition pd : App.Backend :=
  App.mkBackend Csv.read_csv
    (fun _ => Raise (OtherError "read_excel"))
    Csv.to_csv
    (fun _ => Ok "workbook").

Definition line (s : string) : string := (s ++ String Csv.LF EmptyString)%string.

(** A file with a repeated row and a missing value. *)
Definition sales_csv : App.UploadedFile :=
  App.mkUploadedFile "sales.csv" 22
    (line "id,value" ++ line "1,10" ++ line "2," ++ line "1,10")%string.

Definition notes_txt : App.UploadedFile :=
  App.mkUploadedFile "notes.txt" 5 "hello".

(** The widgets as they are after the upload of [f], nothing touched. *)
Definition untouched (f : App.UploadedFile) : App.Widgets :=
  App.mkWidgets (Some f) None false false false false false false "CSV" false.

Definition sales_parsed : DataFrame :=
  mkDataFrame [0; 1; 2]%nat
    [mkSeries "id" int64 [Int 1; Int 2; Int 1];
     mkSeries "value" float64 [Num 10; NaN; Num 10]].

Definition sales_deduplicated : DataFrame :=
  mkDataFrame [0; 1]%nat
    [mkSeries "id" int64 [Int 1; Int 2];
     mkSeries "value" float64 [Num 10; NaN]].

(** The user ticks the cleaning box and clicks the first button. *)
Definition click_remove_duplicates : App.Widgets :=
  App.mkWidgets (Some sales_csv) None true true false false false false "CSV" false.

(** Then clicks the second button: a new run, in which only that button
    is [true]. *)
Definition click_fill_missing : App.Widgets :=
  App.mkWidgets (Some sales_csv) None true false true false false false "CSV" false.





(** Or clicks the download button. *)
Definition click_convert : App.Widgets :=
  App.mkWidgets (Some sales_csv) None true false false false false false "CSV" true.

(** The user removes every column from the selection and asks for the
    summary. *)
Definition no_columns_summary : App.Widgets :=
  App.mkWidgets (Some sales_csv) (Some []) false false false true false false "CSV" false.

Definition no_columns_plots : App.Widgets :=
  App.mkWidgets (Some sales_csv) (Some []) false false false false true true "CSV" false.


End Examples.

(* ================================================================== *)
(** * Properties *)
(* ================================================================== *)

Import Pandas.

Unset Implicit Arguments.

(** ** Export *)

(** C1 (the code departs from it).  The file name of the download is
    [processed_data.] followed by the lower-cased format label: for CSV it
    is [processed_data.csv], but for Excel it is [processed_data.excel],
    not [processed_data.xlsx], while the bytes and the content type are
    those of a workbook. *)
Theorem download_file_name_of_formats (pd : App.Backend) (df : DataFrame) :
  App.convert_and_download pd "CSV" df
  = ([App.st_download_button "📥 Download as CSV" (App.to_csv pd df)
        "processed_data.csv" "text/csv"], App.Done tt)
  /\ match App.to_excel pd df with
     | Ok bytes =>
         App.convert_and_download pd "Excel" df
         = ([App.st_download_button "📥 Download as Excel" bytes
               "processed_data.excel" App.mime_xlsx], App.Done tt)
     | Raise e => App.convert_and_download pd "Excel" df = ([], App.Failed e)
     end
  /\ App.download_file_name "Excel" <> "processed_data.xlsx".
Proof.
  split; [reflexivity|split].
  - unfold App.convert_and_download. simpl.
    destruct (App.to_excel pd df); reflexivity.
  - discriminate.
Qed.

(** ** Ingestion *)

Lemma eqb_false_of_neq (a b : string) : a <> b -> String.eqb a b = false.
Proof. intros H. apply String.eqb_neq. exact H. Qed.

(** C8.  When the extension of the uploaded file, as the script reads it
    (lower-cased), is neither [.csv] nor [.xlsx], the run shows the error
    that names the extension and stops there: nothing is parsed, no table
    is bound, and no later section is executed. *)
Theorem unsupported_extension_halts (pd : App.Backend) (w : App.Widgets)
    (f : App.UploadedFile) :
  App.uploaded_file w = Some f ->
  App.file_extension f <> ".csv" ->
  App.file_extension f <> ".xlsx" ->
  App.ingest pd f
  = ([App.st_error ("❌ Unsupported file type: " ++ App.file_extension f)%string],
     App.Stopped)
  /\ App.run pd w
     = ([App.st_title "📊 Data Sweeper - Intelligent Data Processor";
         App.st_write "Easily clean, analyze, and transform your data files with automated features.";
         App.st_error ("❌ Unsupported file type: " ++ App.file_extension f)%string],
        App.Stopped).
Proof.
  intros Hf Hcsv Hxlsx.
  assert (Hi : App.ingest pd f
    = ([App.st_error ("❌ Unsupported file type: " ++ App.file_extension f)%string],
       App.Stopped)).
  { unfold App.ingest.
    rewrite (eqb_false_of_neq _ _ Hcsv), (eqb_false_of_neq _ _ Hxlsx). reflexivity. }
  split; [exact Hi|].
  unfold App.run, App.working_table. rewrite Hf, Hi. reflexivity.
Qed.

(** The extension is compared in lower case, and a name that is only an
    extension has none. *)
Example file_extension_examples :
  App.file_extension (App.mkUploadedFile "REPORT.CSV" 0 EmptyString) = ".csv"
  /\ App.file_extension (App.mkUploadedFile "book.v2.Xlsx" 0 EmptyString) = ".xlsx"
  /\ App.file_extension (App.mkUploadedFile ".csv" 0 EmptyString) = EmptyString
  /\ App.file_extension (App.mkUploadedFile "archive.tar.gz" 0 EmptyString) = ".gz".
Proof. repeat split. Qed.

Lemma unsupported_extension_halts_witness :
  App.file_extension Examples.notes_txt = ".txt"
  /\ App.run Examples.pd (Examples.untouched Examples.notes_txt)
     = ([App.st_title "📊 Data Sweeper - Intelligent Data Processor";
         App.st_write "Easily clean, analyze, and transform your data files with automated features.";
         App.st_error "❌ Unsupported file type: .txt"],
        App.Stopped).
Proof.
  split; [reflexivity|].
  apply (@unsupported_extension_halts Examples.pd
           (Examples.untouched Examples.notes_txt) Examples.notes_txt).
  - reflexivity.
  - vm_compute. discriminate.
  - vm_compute. discriminate.
Defined.

(** ** Column projection *)

Lemma get_column_name (df : DataFrame) (k : string) (s : Series) :
  get_column df k = Some s -> name s = k /\ In s (data df).
Proof.
  unfold get_column. intros H. apply find_some in H. destruct H as [Hin Heq].
  apply String.eqb_eq in Heq. split; assumption.
Qed.

Lemma get_column_defined (df : DataFrame) (k : string) :
  In k (columns df) -> exists s, get_column df k = Some s.
Proof.
  unfold columns, get_column. intros H. apply in_map_iff in H.
  destruct H as [s [Hs Hin]].
  destruct (find (fun s0 => String.eqb (name s0) k) (data df)) eqn:E.
  - eauto.
  - exfalso. apply (find_none _ _ E) in Hin. rewrite Hs, String.eqb_refl in Hin.
    discriminate.
Qed.

Lemma get_columns_ok (df : DataFrame) (keys : list string) :
  incl keys (columns df) ->
  exists ss, get_columns df keys = Ok ss
             /\ map name ss = keys
             /\ Forall2 (fun k s => get_column df k = Some s) keys ss.
Proof.
  induction keys as [|k keys IH]; intros Hincl.
  - exists []. repeat split; constructor.
  - destruct (get_column_defined df k) as [s Hs].
    { apply Hincl. left. reflexivity. }
    destruct IH as [ss [Hss [Hn Hall]]].
    { intros x Hx. apply Hincl. right. exact Hx. }
    exists (s :: ss). simpl. rewrite Hs, Hss. repeat split.
    + simpl. rewrite Hn. destruct (get_column_name _ _ _ Hs) as [-> _]. reflexivity.
    + constructor; assumption.
Qed.

Lemma find_unique (cols : list Series) (s : Series) :
  NoDup (map name cols) -> In s cols ->
  find (fun c => String.eqb (name c) (name s)) cols = Some s.
Proof.
  induction cols as [|c cols IH]; intros Hnd Hin; [contradiction|].
  inversion Hnd as [|? ? Hnotin Hnd']; subst. simpl.
  destruct Hin as [->|Hin].
  - rewrite String.eqb_refl. reflexivity.
  - destruct (String.eqb (name c) (name s)) eqn:E.
    + apply String.eqb_eq in E. exfalso. apply Hnotin. rewrite E.
      apply in_map. exact Hin.
    + apply IH; assumption.
Qed.

(** C6.  For a parsed table (its labels are distinct) and a selection
    made of its column labels (the options of the multiselect, the empty
    selection included), the projection succeeds; the projected table has
    exactly the selected labels, in the order of the selection; its rows
    are the rows of the parsed table (same index); each of its columns is
    a column of the parsed table, the one that carries the label, with its
    dtype and all its values; and every column of the parsed table whose
    label is selected is in the projected table. *)
Theorem projection_is_pure_filter (w : App.Widgets) (df : DataFrame) :
  unique_columns df ->
  incl (App.multiselect w df) (columns df) ->
  exists df',
    snd (App.column_selection w df) = App.Done df'
    /\ columns df' = App.multiselect w df
    /\ index df' = index df
    /\ Forall2 (fun k s' => In s' (data df) /\ name s' = k)
         (App.multiselect w df) (data df')
    /\ (forall c, In c (data df) -> In (name c) (App.multiselect w df) ->
        In c (data df')).
Proof.
  intros Hnd Hincl.
  destruct (get_columns_ok df _ Hincl) as [ss [Hss [Hn Hall]]].
  exists (mkDataFrame (index df) ss).
  unfold App.column_selection, getitem. rewrite Hss. simpl.
  split; [reflexivity|]. split; [exact Hn|]. split; [reflexivity|]. split.
  - clear Hss Hn Hincl. induction Hall as [|k s' ks ss' Hk _ IH]; constructor.
    + destruct (get_column_name _ _ _ Hk) as [Hname Hin]. split; assumption.
    + exact IH.
  - intros c Hc Hsel. clear Hss Hn Hincl.
    induction Hall as [|k s' ks ss' Hk _ IH]; [contradiction|].
    destruct Hsel as [Hkc|Hsel].
    + left. subst k. unfold get_column in Hk.
      rewrite (find_unique (data df) c Hnd Hc) in Hk. congruence.
    + right. apply IH. exact Hsel.
Qed.

Lemma projection_is_pure_filter_witness :
  exists df',
    snd (App.column_selection
           (App.mkWidgets None (Some ["value"; "id"]) false false false false
              false false "CSV" false) Examples.sales_parsed) = App.Done df'
    /\ columns df' = ["value"; "id"]
    /\ index df' = [0; 1; 2]%nat
    /\ Forall2 (fun k s' => In s' (data Examples.sales_parsed) /\ name s' = k)
         ["value"; "id"] (data df')
    /\ (forall c, In c (data Examples.sales_parsed) ->
        In (name c) ["value"; "id"] -> In c (data df')).
Proof.
  apply (@projection_is_pure_filter
           (App.mkWidgets None (Some ["value"; "id"]) false false false false
              false false "CSV" false) Examples.sales_parsed).
  - unfold unique_columns. simpl. repeat constructor; simpl; intuition discriminate.
  - intros k Hk. simpl in *. intuition.
Defined.

(** ** The empty selection *)

(** C3 (the code departs from it).  With every column removed from the
    selection the projection gives a table without columns and the
    heatmap and histogram sections answer with their warning, but the
    summary section calls [describe], which refuses a table without
    columns: the run ends there with that exception. *)
Theorem summary_of_empty_selection_raises (pd : App.Backend) (w : App.Widgets)
    (f : App.UploadedFile) (df0 : DataFrame) :
  App.uploaded_file w = Some f ->
  App.ingest pd f = ([], App.Done df0) ->
  App.selected_columns w = Some [] ->
  App.show_summary w = true ->
  snd (App.column_selection w df0) = App.Done (mkDataFrame (index df0) [])
  /\ snd (App.run pd w)
     = App.Failed (ValueError "Cannot describe a DataFrame without columns").
Proof.
  intros Hf Hi Hsel Hsum.
  unfold App.run, App.working_table, App.column_selection, App.multiselect,
    App.cleaning, App.exploration, App.fill_missing_mean.
  rewrite Hf, Hi, Hsel, Hsum.
  split; [reflexivity|].
  destruct (App.enable_cleaning w), (App.remove_duplicates_clicked w),
    (App.fill_missing_clicked w); reflexivity.
Qed.

Lemma summary_of_empty_selection_raises_witness :
  snd (App.column_selection Examples.no_columns_summary Examples.sales_parsed)
  = App.Done (mkDataFrame [0; 1; 2]%nat [])
  /\ snd (App.run Examples.pd Examples.no_columns_summary)
     = App.Failed (ValueError "Cannot describe a DataFrame without columns").
Proof.
  apply (@summary_of_empty_selection_raises Examples.pd
           Examples.no_columns_summary Examples.sales_csv Examples.sales_parsed);
    reflexivity.
Defined.

(** The two plotting sections do tolerate the table without columns. *)
Lemma plots_of_empty_selection_warn :
  App.run Examples.pd Examples.no_columns_plots
  = ([App.st_title "📊 Data Sweeper - Intelligent Data Processor";
      App.st_write "Easily clean, analyze, and transform your data files with automated features.";
      App.st_write "**📄 File Name:** sales.csv";
      App.st_write "**📏 File Size:** 0.02 KB";
      App.st_subheader "📌 Dynamic Column Selection";
      App.st_write "🔍 **Updated Data Preview:**";
      App.st_dataframe (mkDataFrame [0; 1; 2]%nat []);
      App.st_subheader "🛠️ Data Cleaning Options";
      App.st_subheader "🔎 Data Exploration";
      App.st_warning "⚠ No numeric columns available for correlation heatmap.";
      App.st_warning "⚠ No numeric columns available for histogram plotting.";
      App.st_subheader "🔄 Export & Convert Data";
      App.st_success "✅ All operations completed successfully!"],
     App.Done (Some (mkDataFrame [0; 1; 2]%nat []))).
Proof. vm_compute. reflexivity. Qed.

(** ** Rows, masks and duplicates *)

Section Transpose.

Variable A : Type.
Variable d : A.

Lemma transpose_length (n : nat) (cols : list (list A)) :
  List.length (transpose d n cols) = n.
Proof. unfold transpose. rewrite length_map, length_seq. reflexivity. Qed.

Lemma transpose_succ (n : nat) (cols : list (list A)) :
  transpose d (S n) cols
  = map (hd d) cols :: transpose d n (map (@tl A) cols).
Proof.
  unfold transpose. simpl. f_equal.
  - apply map_ext. intros [|x v]; reflexivity.
  - rewrite <- seq_shift, map_map. apply map_ext. intros i.
    rewrite map_map. apply map_ext. intros [|x v]; simpl; [destruct i|]; reflexivity.
Qed.

Lemma mask_filter_nil (B : Type) (mask : list bool) :
  mask_filter mask (@nil B) = [].
Proof. destruct mask as [|[|] mask]; reflexivity. Qed.

Lemma mask_filter_length (B C : Type) (mask : list bool) :
  forall (xs : list B) (ys : list C),
    List.length xs = List.length ys ->
    List.length (mask_filter mask xs) = List.length (mask_filter mask ys).
Proof.
  induction mask as [|b mask IH]; intros xs ys H; [reflexivity|].
  destruct xs as [|x xs], ys as [|y ys]; try discriminate; [reflexivity|].
  injection H as H. destruct b; simpl; auto.
Qed.

Lemma transpose_mask_filter (B : Type) (mask : list bool) :
  forall (idx : list B) (cols : list (list A)),
    List.length mask = List.length idx ->
    Forall (fun v => List.length v = List.length idx) cols ->
    transpose d (List.length (mask_filter mask idx)) (map (mask_filter mask) cols)
    = mask_filter mask (transpose d (List.length idx) cols).
Proof.
  induction mask as [|b mask IH]; intros idx cols Hlen Hall.
  - reflexivity.
  - destruct idx as [|x idx]; [discriminate|]. injection Hlen as Hlen.
    assert (Htl : Forall (fun v => List.length v = List.length idx) (map (@tl A) cols)).
    { apply Forall_map. eapply Forall_impl; [|exact Hall].
      intros [|a v] Hv; [discriminate|]. simpl in *. lia. }
    cbn [List.length]. rewrite (transpose_succ (List.length idx) cols).
    destruct b; cbn [mask_filter List.length].
    + rewrite transpose_succ. f_equal.
      * rewrite map_map. apply map_ext_Forall.
        eapply Forall_impl; [|exact Hall]. intros [|a v] Hv; [discriminate|reflexivity].
      * rewrite <- (IH idx (map (@tl A) cols) Hlen Htl). f_equal.
        rewrite !map_map. apply map_ext_Forall.
        eapply Forall_impl; [|exact Hall]. intros [|a v] Hv; [discriminate|reflexivity].
    + rewrite <- (IH idx (map (@tl A) cols) Hlen Htl). f_equal.
      rewrite map_map. apply map_ext. intros [|a v]; [|reflexivity].
      simpl. rewrite mask_filter_nil. reflexivity.
Qed.

Lemma mask_filter_all_true (mask : list bool) :
  forall xs : list A,
    Forall (fun b => b = true) mask ->
    (List.length xs <= List.length mask)%nat ->
    mask_filter mask xs = xs.
Proof.
  induction mask as [|b mask IH]; intros xs Hall Hlen.
  - destruct xs; [reflexivity|simpl in Hlen; lia].
  - destruct xs as [|x xs]; [reflexivity|].
    inversion Hall as [|? ? Hb Hall']; subst. simpl in *.
    rewrite IH; [reflexivity|assumption|lia].
Qed.

End Transpose.

Lemma duplicated_rows_length (rs : list row) :
  forall seen, List.length (duplicated_rows seen rs) = List.length rs.
Proof. induction rs as [|r rs IH]; intros seen; simpl; [|rewrite IH]; reflexivity. Qed.

Lemma existsb_incl (A : Type) (p : A -> bool) (l l' : list A) :
  incl l l' -> existsb p l' = false -> existsb p l = false.
Proof.
  intros Hincl H. destruct (existsb p l) eqn:E; [|reflexivity].
  apply existsb_exists in E. destruct E as [x [Hin Hp]].
  assert (existsb p l' = true) by (apply existsb_exists; exists x; auto).
  congruence.
Qed.

(** Among the rows that are kept no row is a duplicate any more. *)
Lemma kept_rows_not_duplicated (rs : list row) :
  forall seen seen',
    incl seen' seen ->
    Forall (fun b => b = true)
      (map negb (duplicated_rows seen'
                   (mask_filter (map negb (duplicated_rows seen rs)) rs))).
Proof.
  induction rs as [|r rs IH]; intros seen seen' Hincl; [constructor|].
  cbn [duplicated_rows map mask_filter].
  destruct (existsb (row_eqb r) seen) eqn:E; cbn [negb].
  - apply IH. intros x Hx. right. apply Hincl. exact Hx.
  - cbn [duplicated_rows map]. constructor.
    + rewrite (existsb_incl _ _ _ _ Hincl E). reflexivity.
    + apply IH. intros x [Hx|Hx]; [left; exact Hx|right; apply Hincl; exact Hx].
Qed.

Lemma getitem_mask_rows (df : DataFrame) (mask : list bool) :
  aligned df ->
  List.length mask = List.length (index df) ->
  rows (getitem_mask df mask) = mask_filter mask (rows df).
Proof.
  intros Hal Hlen. unfold rows, getitem_mask. cbn [index data].
  rewrite map_map. cbn [values]. rewrite <- (map_map values (mask_filter mask)).
  apply transpose_mask_filter; [exact Hlen|].
  apply Forall_map. exact Hal.
Qed.

Lemma getitem_mask_aligned (df : DataFrame) (mask : list bool) :
  aligned df -> aligned (getitem_mask df mask).
Proof.
  unfold aligned, getitem_mask. cbn [index data]. intros Hal.
  apply Forall_map. eapply Forall_impl; [|exact Hal].
  intros s Hs. cbn [values]. apply mask_filter_length. exact Hs.
Qed.

Lemma getitem_mask_all_true (df : DataFrame) (mask : list bool) :
  aligned df ->
  Forall (fun b => b = true) mask ->
  (List.length (index df) <= List.length mask)%nat ->
  getitem_mask df mask = df.
Proof.
  intros Hal Hall Hlen. destruct df as [idx cols]. unfold getitem_mask, aligned in *.
  cbn [index data] in *. f_equal.
  - apply mask_filter_all_true; assumption.
  - rewrite <- (map_id cols) at 2. apply map_ext_Forall.
    eapply Forall_impl; [|exact Hal]. intros [n t v] Hv. cbn [name dtype values] in *.
    f_equal. apply mask_filter_all_true; [assumption|lia].
Qed.

Lemma rows_length (df : DataFrame) : List.length (rows df) = List.length (index df).
Proof. apply transpose_length. Qed.

(** C7.  Remove Duplicates applied to its own result changes nothing: the
    table, and so its row count, is the one the first application gave. *)
Theorem drop_duplicates_idempotent (df : DataFrame) :
  aligned df ->
  drop_duplicates (drop_duplicates df) = drop_duplicates df
  /\ List.length (index (drop_duplicates (drop_duplicates df)))
     = List.length (index (drop_duplicates df)).
Proof.
  intros Hal.
  assert (H : drop_duplicates (drop_duplicates df) = drop_duplicates df).
  { unfold drop_duplicates at 2 3. destruct (empty df) eqn:E.
    - unfold drop_duplicates. rewrite E. reflexivity.
    - set (keep := map negb (duplicated df)).
      assert (Hk : List.length keep = List.length (index df)).
      { unfold keep, duplicated. rewrite E, length_map, duplicated_rows_length.
        apply rows_length. }
      unfold drop_duplicates. destruct (empty (getitem_mask df keep)) eqn:E1;
        [reflexivity|].
      apply getitem_mask_all_true.
      + apply getitem_mask_aligned. exact Hal.
      + unfold duplicated at 1. rewrite E1, (getitem_mask_rows df keep Hal Hk).
        unfold keep, duplicated. rewrite E.
        apply kept_rows_not_duplicated. apply incl_refl.
      + rewrite length_map. unfold duplicated. rewrite E1, duplicated_rows_length,
          rows_length. apply le_n. }
  split; [exact H|]. rewrite H. reflexivity.
Qed.

Lemma drop_duplicates_idempotent_witness :
  drop_duplicates (drop_duplicates Examples.sales_parsed)
  = drop_duplicates Examples.sales_parsed
  /\ List.length (index (drop_duplicates (drop_duplicates Examples.sales_parsed)))
     = List.length (index (drop_duplicates Examples.sales_parsed)).
Proof.
  apply (@drop_duplicates_idempotent Examples.sales_parsed).
  repeat constructor.
Defined.

(** ** Fill Missing (Mean), column by column *)

Lemma get_columns_map (df : DataFrame) (l : list Series) :
  (forall s, In s l -> get_column df (name s) = Some s) ->
  get_columns df (map name l) = Ok l.
Proof.
  induction l as [|s l IH]; intros H; [reflexivity|].
  simpl. rewrite (H s (or_introl eq_refl)), IH; [reflexivity|].
  intros s' Hs'. apply H. right. exact Hs'.
Qed.

(** The labels of the numeric columns of a table with unique labels are
    unique. *)
Lemma numeric_labels_unique (cols : list Series) :
  NoDup (map name cols) ->
  NoDup (map name (filter (fun s => is_number (dtype s)) cols)).
Proof.
  intros Hnd. induction cols as [|c cols IH]; [constructor|].
  inversion Hnd as [|? ? Hfresh Hrest]; subst. cbn [filter].
  destruct (is_number (dtype c)); [|apply IH; exact Hrest].
  cbn [map]. constructor; [|apply IH; exact Hrest].
  intros Hin. apply Hfresh. apply in_map_iff in Hin.
  destruct Hin as [x [Hx Hin]]. apply filter_In in Hin.
  rewrite <- Hx. apply in_map. apply Hin.
Qed.

Lemma lookup_frame_mean (l : list Series) (s : Series) :
  NoDup (map name l) -> In s l ->
  lookup (name s) (map (fun c => (name c, mean (values c))) l)
  = Some (mean (values s)).
Proof.
  induction l as [|c l IH]; intros Hnd Hin; [contradiction|].
  inversion Hnd as [|? ? Hnotin Hnd']; subst. simpl.
  destruct Hin as [->|Hin].
  - rewrite String.eqb_refl. reflexivity.
  - destruct (String.eqb (name c) (name s)) eqn:E.
    + apply String.eqb_eq in E. exfalso. apply Hnotin. rewrite E.
      apply in_map. exact Hin.
    + apply IH; assumption.
Qed.

(** The filled copy of a numeric column. *)
Lemma fillna_frame_mean (idx : list nat) (l : list Series) :
  NoDup (map name l) ->
  fillna (mkDataFrame idx l) (frame_mean (mkDataFrame idx l))
  = mkDataFrame idx
      (map (fun s => mkSeries (name s) (dtype s)
                       (map (fill_cell (mean (values s))) (values s))) l).
Proof.
  intros Hnd. unfold fillna, frame_mean. cbn [index data]. f_equal.
  apply map_ext_in. intros s Hs. rewrite (lookup_frame_mean l s Hnd Hs). reflexivity.
Qed.

Lemma set_column_in_app (pre rest : list Series) (c s : Series) :
  (forall p, In p pre -> name p <> name c) ->
  set_column_in (pre ++ c :: rest) (name c) s
  = pre ++ mkSeries (name c) (dtype s) (values s) :: rest.
Proof.
  induction pre as [|p pre IH]; intros H; simpl.
  - rewrite String.eqb_refl. reflexivity.
  - rewrite (eqb_false_of_neq _ _ (H p (or_introl eq_refl))), IH; [reflexivity|].
    intros q Hq. apply H. right. exact Hq.
Qed.

Lemma setitem_zip_fold (value : DataFrame) (g : Series -> Series) (l : list Series) :
  (forall s, In s l -> get_column value (name s) = Some (g s)) ->
  forall idx cur,
    setitem_zip (mkDataFrame idx cur) (map (fun s => (name s, name s)) l) value
    = Ok (mkDataFrame idx
            (fold_left (fun cur s => set_column_in cur (name s) (g s)) l cur)).
Proof.
  induction l as [|s l IH]; intros H idx cur; [reflexivity|].
  cbn [map setitem_zip fold_left]. rewrite (H s (or_introl eq_refl)).
  unfold set_column. cbn [index data]. apply IH.
  intros s' Hs'. apply H. right. exact Hs'.
Qed.

Lemma fill_column_name (s : Series) : name (App.fill_column s) = name s.
Proof. unfold App.fill_column. destruct (is_number (dtype s)); reflexivity. Qed.

Lemma fold_set_filled (rest : list Series) :
  forall pre,
    NoDup (map name (pre ++ rest)) ->
    fold_left
      (fun cur s =>
         set_column_in cur (name s)
           (mkSeries (name s) (dtype s)
              (map (fill_cell (mean (values s))) (values s))))
      (filter (fun s => is_number (dtype s)) rest)
      (map App.fill_column pre ++ rest)
    = map App.fill_column (pre ++ rest).
Proof.
  induction rest as [|c rest IH]; intros pre Hnd.
  - simpl. rewrite !app_nil_r. reflexivity.
  - assert (Hnd' : NoDup (map name ((pre ++ [c]) ++ rest))).
    { rewrite <- app_assoc. exact Hnd. }
    specialize (IH (pre ++ [c]) Hnd').
    rewrite <- app_assoc in IH. cbn [app] in IH. rewrite <- IH. clear IH.
    rewrite map_app. cbn [map filter]. rewrite <- app_assoc. cbn [app].
    unfold App.fill_column at 3.
    destruct (is_number (dtype c)) eqn:E; [|reflexivity].
    cbn [fold_left]. f_equal.
    rewrite set_column_in_app; [reflexivity|].
    intros p Hp Heq. apply in_map_iff in Hp. destruct Hp as [p0 [<- Hp0]].
    rewrite fill_column_name in Heq.
    rewrite map_app in Hnd. apply NoDup_remove_2 in Hnd.
    apply Hnd. apply in_or_app. left. rewrite <- Heq. apply in_map. exact Hp0.
Qed.

(** On a table whose labels are unique, lines 96-97 succeed and treat
    every column on its own. *)
Lemma fill_missing_mean_by_column (df : DataFrame) :
  unique_columns df ->
  App.fill_missing_mean df
  = Ok (mkDataFrame (index df) (map App.fill_column (data df))).
Proof.
  intros Hnd. unfold unique_columns, columns in Hnd. unfold App.fill_missing_mean.
  set (nums := filter (fun s => is_number (dtype s)) (data df)).
  assert (Hnums : NoDup (map name nums)) by (apply numeric_labels_unique; exact Hnd).
  assert (Hget : getitem df (columns (select_dtypes_number df))
                 = Ok (mkDataFrame (index df) nums)).
  { unfold getitem, columns, select_dtypes_number. cbn [data].
    fold nums. rewrite get_columns_map; [reflexivity|].
    intros s Hs. apply find_unique; [exact Hnd|].
    apply filter_In in Hs. tauto. }
  rewrite Hget, (fillna_frame_mean (index df) nums Hnums).
  unfold setitem, columns, select_dtypes_number. cbn [data]. fold nums.
  rewrite map_map. cbn [name].
  assert (Hzip : combine (map name nums) (map (fun x => name x) nums)
                 = map (fun s => (name s, name s)) nums).
  { clear. induction nums as [|s l IH]; [reflexivity|]. simpl. rewrite IH. reflexivity. }
  rewrite Hzip. destruct df as [idx cols]. cbn [index data] in *.
  rewrite (setitem_zip_fold _
             (fun s => mkSeries (name s) (dtype s)
                         (map (fill_cell (mean (values s))) (values s)))).
  - f_equal. f_equal. apply (fold_set_filled cols []). exact Hnd.
  - intros s Hs. unfold get_column. cbn [data].
    assert (Hnd2 : NoDup (map name
              (map (fun s0 => mkSeries (name s0) (dtype s0)
                         (map (fill_cell (mean (values s0))) (values s0))) nums))).
    { rewrite map_map. exact Hnums. }
    apply (find_unique _
             (mkSeries (name s) (dtype s)
                (map (fill_cell (mean (values s))) (values s))) Hnd2).
    apply in_map_iff. exists s. split; [reflexivity|exact Hs].
Qed.

Lemma Forall2_map_right (A B : Type) (P : A -> B -> Prop) (f : A -> B) (l : list A) :
  (forall a, In a l -> P a (f a)) -> Forall2 P l (map f l).
Proof.
  induction l as [|a l IH]; intros H; [constructor|].
  simpl. constructor.
  - apply H. left. reflexivity.
  - apply IH. intros b Hb. apply H. right. exact Hb.
Qed.

Lemma filled_has_no_missing (m : float) (xs : list cell) :
  filter isna (map (fill_cell (Num m)) xs) = [].
Proof.
  induction xs as [|c xs IH]; [reflexivity|].
  simpl. destruct c; simpl; exact IH.
Qed.

(** The mean of a column is the missing value or a double. *)
Lemma mean_cases (xs : list cell) : mean xs = NaN \/ exists m, mean xs = Num m.
Proof.
  unfold mean. destruct (present xs) as [|q qs]; [left; reflexivity|].
  unfold number. destruct (PrimFloat.is_nan _); [left; reflexivity|].
  right. eexists. reflexivity.
Qed.

Lemma mean_of_all_missing (xs : list cell) :
  Forall (fun c => c = NaN) xs -> mean xs = NaN.
Proof.
  intros H. unfold mean.
  replace (present xs) with (@nil float); [reflexivity|].
  induction H as [|c xs Hc _ IH]; [reflexivity|]. subst c. exact IH.
Qed.

Lemma fill_with_missing (xs : list cell) : map (fill_cell NaN) xs = xs.
Proof.
  induction xs as [|c xs IH]; [reflexivity|].
  simpl. rewrite IH. destruct c; reflexivity.
Qed.




(** C9.  On a table with unique labels Fill Missing (Mean) succeeds also
    when a numeric column has no value present: the mean of that column is
    the missing value, the column comes out as it went in, all entries
    still missing; every column, that one included, is the result of the
    column-wise fill. *)
Theorem all_missing_column_left_unfilled (df : DataFrame) :
  unique_columns df ->
  exists df',
    App.fill_missing_mean df = Ok df'
    /\ index df' = index df
    /\ Forall2
         (fun s s' =>
            s' = App.fill_column s
            /\ (is_number (dtype s) = true ->
                Forall (fun c => c = NaN) (values s) ->
                mean (values s) = NaN /\ s' = s))
         (data df) (data df').
Proof.
  intros Hnd. eexists. split; [apply fill_missing_mean_by_column; exact Hnd|].
  split; [reflexivity|].
  cbn [data]. apply Forall2_map_right. intros s _.
  split; [reflexivity|]. intros Hnum Hall.
  split; [apply mean_of_all_missing; exact Hall|].
  unfold App.fill_column. rewrite Hnum, (mean_of_all_missing _ Hall), fill_with_missing.
  destruct s; reflexivity.
Qed.

Lemma all_missing_column_left_unfilled_witness :
  exists df',
    App.fill_missing_mean
      (mkDataFrame [0; 1]%nat
         [mkSeries "id" int64 [Int 1; Int 2];
          mkSeries "price" float64 [NaN; NaN];
          mkSeries "qty" float64 [Num 3; NaN]]) = Ok df'
    /\ index df' = [0; 1]%nat
    /\ Forall2
         (fun s s' =>
            s' = App.fill_column s
            /\ (is_number (dtype s) = true ->
                Forall (fun c => c = NaN) (values s) ->
                mean (values s) = NaN /\ s' = s))
         [mkSeries "id" int64 [Int 1; Int 2];
          mkSeries "price" float64 [NaN; NaN];
          mkSeries "qty" float64 [Num 3; NaN]] (data df').
Proof.
  apply (all_missing_column_left_unfilled
           (mkDataFrame [0; 1]%nat
              [mkSeries "id" int64 [Int 1; Int 2];
               mkSeries "price" float64 [NaN; NaN];
               mkSeries "qty" float64 [Num 3; NaN]])).
  unfold unique_columns. simpl.
  repeat constructor; simpl; intuition discriminate.
Defined.

(** ** What the cleaning operations leave alone *)

Lemma repeat_true_all (n : nat) : Forall (fun b => b = true) (repeat true n).
Proof. induction n; simpl; constructor; auto. Qed.

Lemma fill_column_keeps_present (s : Series) :
  Forall2 (fun c c' => c <> NaN -> c' = c) (values s) (values (App.fill_column s)).
Proof.
  unfold App.fill_column. destruct (is_number (dtype s)); cbn [values].
  - apply Forall2_map_right. intros c _ Hc. destruct c; try reflexivity. contradiction.
  - rewrite <- (map_id (values s)) at 2. apply Forall2_map_right. intros c _ _. reflexivity.
Qed.

(** C10.  On a table with a value per row in every column and unique
    labels: Remove Duplicates keeps the labels and dtypes of the columns in
    their order, and what remains is a selection of the rows of the table
    by one mask, each remaining row with the cells and the label it had, in
    the order it had; Fill Missing (Mean) keeps the index (the rows, their
    number and their order) and the labels, and every cell that was not
    missing keeps its value. *)
Theorem cleaning_leaves_the_rest (df : DataFrame) :
  aligned df ->
  unique_columns df ->
  (columns (drop_duplicates df) = columns df
   /\ map dtype (data (drop_duplicates df)) = map dtype (data df)
   /\ exists mask,
       List.length mask = List.length (index df)
       /\ index (drop_duplicates df) = mask_filter mask (index df)
       /\ rows (drop_duplicates df) = mask_filter mask (rows df))
  /\ exists df',
       App.fill_missing_mean df = Ok df'
       /\ index df' = index df
       /\ columns df' = columns df
       /\ Forall2
            (fun s s' => Forall2 (fun c c' => c <> NaN -> c' = c) (values s) (values s'))
            (data df) (data df').
Proof.
  intros Hal Hnd. split.
  - unfold drop_duplicates. destruct (empty df) eqn:E.
    + split; [reflexivity|]. split; [reflexivity|].
      exists (repeat true (List.length (index df))).
      rewrite repeat_length. split; [reflexivity|].
      rewrite !mask_filter_all_true;
        [split; reflexivity|apply repeat_true_all| |apply repeat_true_all|].
      * rewrite rows_length, repeat_length. apply le_n.
      * rewrite repeat_length. apply le_n.
    + unfold getitem_mask, columns. cbn [data index]. rewrite !map_map. cbn [name dtype].
      split; [reflexivity|]. split; [reflexivity|].
      exists (map negb (duplicated df)).
      assert (Hk : List.length (map negb (duplicated df)) = List.length (index df)).
      { unfold duplicated. rewrite E, length_map, duplicated_rows_length.
        apply rows_length. }
      split; [exact Hk|]. split; [reflexivity|].
      apply (getitem_mask_rows df _ Hal Hk).
  - eexists. split; [apply fill_missing_mean_by_column; exact Hnd|].
    split; [reflexivity|]. split.
    + unfold columns. cbn [data]. rewrite map_map.
      apply map_ext. intros s. apply fill_column_name.
    + cbn [data]. apply Forall2_map_right. intros s _.
      apply fill_column_keeps_present.
Qed.

Lemma cleaning_leaves_the_rest_witness :
  (columns (drop_duplicates Examples.sales_parsed) = columns Examples.sales_parsed
   /\ map dtype (data (drop_duplicates Examples.sales_parsed))
      = map dtype (data Examples.sales_parsed)
   /\ exists mask,
       List.length mask = List.length (index Examples.sales_parsed)
       /\ index (drop_duplicates Examples.sales_parsed)
          = mask_filter mask (index Examples.sales_parsed)
       /\ rows (drop_duplicates Examples.sales_parsed)
          = mask_filter mask (rows Examples.sales_parsed))
  /\ exists df',
       App.fill_missing_mean Examples.sales_parsed = Ok df'
       /\ index df' = index Examples.sales_parsed
       /\ columns df' = columns Examples.sales_parsed
       /\ Forall2
            (fun s s' => Forall2 (fun c c' => c <> NaN -> c' = c) (values s) (values s'))
            (data Examples.sales_parsed) (data df').
Proof.
  apply (cleaning_leaves_the_rest Examples.sales_parsed).
  - repeat constructor.
  - unfold unique_columns. simpl.
    repeat constructor; simpl; intuition discriminate.
Defined.

(** ** The working table from one run to the next *)

(** C4 (as stated, refuted).  The user removes the duplicates: in that run
    the table has two rows.  The user then clicks the fill button, or the
    download button: the script runs again, parses the upload again, and
    the table it fills, or exports, has the three rows of the file; the
    removal of the duplicates is not in it. *)
Lemma cleaning_lost_in_next_run :
  snd (App.run Examples.pd Examples.click_remove_duplicates)
  = App.Done (Some Examples.sales_deduplicated)
  /\ snd (App.run Examples.pd Examples.click_convert)
     = App.Done (Some Examples.sales_parsed)
  /\ In (App.st_download_button "📥 Download as CSV"
           (Csv.to_csv Examples.sales_parsed) "processed_data.csv" "text/csv")
        (fst (App.run Examples.pd Examples.click_convert))
  /\ snd (App.run Examples.pd Examples.click_fill_missing)
     = App.Done (Some (mkDataFrame [0; 1; 2]%nat
                         [mkSeries "id" int64 [Int 1; Int 2; Int 1];
                          mkSeries "value" float64 [Num 10; Num 10; Num 10]]))
  /\ Examples.sales_parsed <> Examples.sales_deduplicated.
Proof.
  split; [vm_compute; reflexivity|].
  split; [vm_compute; reflexivity|].
  split; [vm_compute; tauto|].
  split; [vm_compute; reflexivity|].
  discriminate.
Qed.

(** How a sequence ends. *)
Lemma bind_status (A B : Type) (c : App.M A) (k : A -> App.M B) :
  snd (App.bind c k)
  = match snd c with
    | App.Done a => snd (k a)
    | App.Stopped => App.Stopped
    | App.Failed e => App.Failed e
    end.
Proof.
  destruct c as [out [a| |e]]; cbn; [destruct (k a)| |]; reflexivity.
Qed.

Lemma ingest_metadata_selection (pd : App.Backend) (w : App.Widgets)
    (f : App.UploadedFile) (df0 df : DataFrame) :
  App.ingest pd f = ([], App.Done df0) ->
  getitem df0 (App.multiselect w df0) = Ok df ->
  snd (App.working_table pd w f) = snd (App.cleaning w df).
Proof.
  intros Hi Hsel. unfold App.working_table. rewrite Hi.
  unfold App.bind at 1. unfold App.metadata, App.column_selection.
  cbn [App.bind App.emit app]. rewrite Hsel.
  cbn [App.lift App.bind App.emit App.ret app].
  destruct (App.cleaning w df). reflexivity.
Qed.

(** C4 (amended).  The working table of a run is built in that run, from
    the uploaded file and the current selection; a cleaning operation is
    applied to it exactly when its button was clicked for that run.  So a
    run without a cleaning click works on the projection of the parsed
    file, whatever was clicked in earlier runs; the run of a click on
    Remove Duplicates works on the projection without its duplicates, and
    the run of a click on Fill Missing on the filled projection.  That
    table is the one the rest of the run explores and exports. *)
Theorem working_table_rebuilt_each_run (pd : App.Backend) (w : App.Widgets)
    (f : App.UploadedFile) (df0 df : DataFrame) :
  App.uploaded_file w = Some f ->
  App.ingest pd f = ([], App.Done df0) ->
  getitem df0 (App.multiselect w df0) = Ok df ->
  (App.enable_cleaning w
   && (App.remove_duplicates_clicked w || App.fill_missing_clicked w) = false ->
   snd (App.working_table pd w f) = App.Done df)
  /\ (App.enable_cleaning w = true ->
      App.remove_duplicates_clicked w = true ->
      App.fill_missing_clicked w = false ->
      snd (App.working_table pd w f) = App.Done (drop_duplicates df))
  /\ (App.enable_cleaning w = true ->
      App.remove_duplicates_clicked w = false ->
      App.fill_missing_clicked w = true ->
      snd (App.working_table pd w f)
      = match App.fill_missing_mean df with
        | Ok df' => App.Done df'
        | Raise e => App.Failed e
        end)
  /\ (forall table,
        snd (App.working_table pd w f) = App.Done table ->
        snd (App.run pd w)
        = snd (App.bind (App.exploration w table)
                 (fun _ =>
                    App.bind (App.export pd w table)
                      (fun _ =>
                         App.bind
                           (App.emit
                              (App.st_success "✅ All operations completed successfully!"))
                           (fun _ => App.ret (Some table)))))).
Proof.
  intros Hf Hi Hsel. split; [|split; [|split]].
  - rewrite (ingest_metadata_selection pd w f df0 df Hi Hsel). unfold App.cleaning.
    destruct (App.enable_cleaning w), (App.remove_duplicates_clicked w),
      (App.fill_missing_clicked w); try discriminate; reflexivity.
  - rewrite (ingest_metadata_selection pd w f df0 df Hi Hsel). unfold App.cleaning.
    intros -> -> ->. reflexivity.
  - rewrite (ingest_metadata_selection pd w f df0 df Hi Hsel). unfold App.cleaning.
    intros -> -> ->. cbn. destruct (App.fill_missing_mean df); reflexivity.
  - intros table Ht. unfold App.run. rewrite Hf.
    rewrite (bind_status _ _ App.header). change (snd App.header) with (App.Done tt).
    cbv beta iota. rewrite (bind_status _ _ (App.working_table pd w f)), Ht.
    reflexivity.
Qed.

Lemma working_table_rebuilt_each_run_witness :
  snd (App.working_table Examples.pd Examples.click_convert Examples.sales_csv)
  = App.Done Examples.sales_parsed
  /\ snd (App.run Examples.pd Examples.click_convert)
     = App.Done (Some Examples.sales_parsed).
Proof.
  destruct (working_table_rebuilt_each_run Examples.pd Examples.click_convert
              Examples.sales_csv Examples.sales_parsed Examples.sales_parsed
              eq_refl eq_refl eq_refl) as [Hnone [_ [_ Hrun]]].
  split.
  - apply Hnone. reflexivity.
  - rewrite (Hrun Examples.sales_parsed (Hnone eq_refl)). reflexivity.
Defined.

(** ** Writing and tokenizing CSV text *)

Import Csv.
























(** ** Reading the values of a column back *)















(** ** The header and the columns of a written table *)








Section Columns.

Variable A : Type.
Variable d : A.





End Columns.




(** ** Export to CSV and back *)





(* ================================================================== *)
(** * Further properties of the cleaning operations *)
(* ================================================================== *)

(** ** Equality of doubles *)

Lemma SFeqb_same_number (a b : spec_float) :
  SFeqb a b = true <-> Float64.same_number a b.
Proof.
  unfold SFeqb.
  destruct a as [s1|s1| |s1 m1 e1], b as [s2|s2| |s2 m2 e2]; cbn;
    try destruct s1; try destruct s2; cbn;
    try (split; intros H; [discriminate H|contradiction H]);
    try (split; intros H; [exact I|reflexivity]);
    try (split; intros H; reflexivity);
    try (split; intros H; discriminate H);
    try (split; [discriminate|intros [H _]; discriminate H]).
  - destruct (Z.compare e1 e2) eqn:E.
    + apply Z.compare_eq in E. subst e2.
      destruct (Pos.compare_cont Eq m1 m2) eqn:Em.
      * apply Pos.compare_eq in Em. subst m2. split; [intros _; repeat split|reflexivity].
      * split; [discriminate|]. intros [_ [Hm _]]. subst m2.
        change (Pos.compare m1 m1 = Lt) in Em. rewrite Pos.compare_refl in Em. discriminate.
      * split; [discriminate|]. intros [_ [Hm _]]. subst m2.
        change (Pos.compare m1 m1 = Gt) in Em. rewrite Pos.compare_refl in Em. discriminate.
    + split; [discriminate|]. intros [_ [_ He]]. subst e2.
      rewrite Z.compare_refl in E. discriminate.
    + split; [discriminate|]. intros [_ [_ He]]. subst e2.
      rewrite Z.compare_refl in E. discriminate.
  - destruct (Z.compare e1 e2) eqn:E.
    + apply Z.compare_eq in E. subst e2.
      destruct (Pos.compare_cont Eq m1 m2) eqn:Em.
      * apply Pos.compare_eq in Em. subst m2. split; [intros _; repeat split|reflexivity].
      * split; [discriminate|]. intros [_ [Hm _]]. subst m2.
        change (Pos.compare m1 m1 = Lt) in Em. rewrite Pos.compare_refl in Em. discriminate.
      * split; [discriminate|]. intros [_ [Hm _]]. subst m2.
        change (Pos.compare m1 m1 = Gt) in Em. rewrite Pos.compare_refl in Em. discriminate.
    + split; [discriminate|]. intros [_ [_ He]]. subst e2.
      rewrite Z.compare_refl in E. discriminate.
    + split; [discriminate|]. intros [_ [_ He]]. subst e2.
      rewrite Z.compare_refl in E. discriminate.
Qed.

Lemma same_number_trans (a b c : spec_float) :
  Float64.same_number a b -> Float64.same_number b c -> Float64.same_number a c.
Proof.
  destruct a, b, c; cbn; try contradiction; try (intros; exact I).
  - intros -> ->. reflexivity.
  - intros [-> [-> ->]] [-> [-> ->]]. repeat split.
Qed.

Lemma eqb_not_nan (x y : float) :
  PrimFloat.eqb x y = true -> PrimFloat.is_nan x = false /\ PrimFloat.is_nan y = false.
Proof.
  unfold PrimFloat.is_nan. rewrite !FloatAxioms.eqb_spec. intros H.
  apply SFeqb_same_number in H.
  assert (Hx : SFeqb (Prim2SF x) (Prim2SF x) = true).
  { apply SFeqb_same_number. destruct (Prim2SF x), (Prim2SF y); cbn in *;
      try contradiction; auto. }
  assert (Hy : SFeqb (Prim2SF y) (Prim2SF y) = true).
  { apply SFeqb_same_number. destruct (Prim2SF x), (Prim2SF y); cbn in *;
      try contradiction; auto. }
  rewrite Hx, Hy. split; reflexivity.
Qed.

Lemma float_eqb_refl (x : float) : float_eqb x x = true.
Proof.
  unfold float_eqb, PrimFloat.is_nan. destruct (PrimFloat.eqb x x); reflexivity.
Qed.

Lemma float_eqb_trans (x y z : float) :
  float_eqb x y = true -> float_eqb y z = true -> float_eqb x z = true.
Proof.
  unfold float_eqb. intros H1 H2.
  apply orb_true_iff in H1, H2. apply orb_true_iff.
  destruct H1 as [H1|H1], H2 as [H2|H2].
  - left. rewrite FloatAxioms.eqb_spec in *. apply SFeqb_same_number.
    apply SFeqb_same_number in H1, H2.
    exact (same_number_trans _ _ _ H1 H2).
  - apply eqb_not_nan in H1. apply andb_true_iff in H2.
    destruct H1 as [_ H1], H2 as [H2 _]. rewrite H1 in H2. discriminate.
  - apply eqb_not_nan in H2. apply andb_true_iff in H1.
    destruct H2 as [H2 _], H1 as [_ H1]. rewrite H1 in H2. discriminate.
  - right. apply andb_true_iff in H1, H2. apply andb_true_iff.
    split; [apply H1|apply H2].
Qed.

(** ** Equality of rows *)

Lemma cell_eqb_refl (c : cell) : cell_eqb c c = true.
Proof.
  destruct c as [|z|x|b|t]; cbn [cell_eqb].
  - reflexivity.
  - apply Z.eqb_refl.
  - apply float_eqb_refl.
  - apply Bool.eqb_reflx.
  - apply String.eqb_refl.
Qed.

Lemma cell_eqb_trans (a b c : cell) :
  cell_eqb a b = true -> cell_eqb b c = true -> cell_eqb a c = true.
Proof.
  destruct a as [|x|x|x|x], b as [|y|y|y|y], c as [|z|z|z|z]; cbn [cell_eqb];
    try discriminate; try reflexivity; intros H1 H2.
  - apply Z.eqb_eq in H1, H2. subst. apply Z.eqb_refl.
  - exact (float_eqb_trans x y z H1 H2).
  - apply Bool.eqb_prop in H1, H2. subst. apply Bool.eqb_reflx.
  - apply String.eqb_eq in H1, H2. subst. apply String.eqb_refl.
Qed.

Lemma row_eqb_refl (r : row) : row_eqb r r = true.
Proof.
  induction r as [|c r IH]; [reflexivity|].
  cbn [row_eqb]. rewrite cell_eqb_refl, IH. reflexivity.
Qed.

Lemma row_eqb_trans (r1 : row) :
  forall r2 r3,
    row_eqb r1 r2 = true -> row_eqb r2 r3 = true -> row_eqb r1 r3 = true.
Proof.
  induction r1 as [|a r1 IH]; intros [|b r2] [|c r3]; cbn [row_eqb];
    try discriminate; [reflexivity|].
  intros H1 H2. apply andb_true_iff in H1, H2.
  destruct H1 as [Hab H1], H2 as [Hbc H2].
  rewrite (cell_eqb_trans a b c Hab Hbc), (IH r2 r3 H1 H2). reflexivity.
Qed.

(** ** Remove Duplicates *)

(** The rows kept out of [rs], [seen] being the rows before them. *)
Lemma kept_rows_distinct (rs : list row) :
  forall seen,
    ForallOrdPairs (fun r r' => row_eqb r' r = false)
      (mask_filter (map negb (duplicated_rows seen rs)) rs)
    /\ Forall (fun r => existsb (row_eqb r) seen = false)
         (mask_filter (map negb (duplicated_rows seen rs)) rs).
Proof.
  induction rs as [|r rs IH]; intros seen; [split; constructor|].
  cbn [duplicated_rows map mask_filter].
  destruct (IH (r :: seen)) as [Hpairs Hseen].
  assert (Hweak : Forall (fun r' => existsb (row_eqb r') seen = false)
                    (mask_filter (map negb (duplicated_rows (r :: seen) rs)) rs)).
  { eapply Forall_impl; [|exact Hseen]. intros r' H. cbn [existsb] in H.
    apply orb_false_iff in H. apply H. }
  destruct (existsb (row_eqb r) seen) eqn:E; cbn [negb].
  - split; assumption.
  - split.
    + constructor; [|exact Hpairs].
      eapply Forall_impl; [|exact Hseen]. intros r' H. cbn [existsb] in H.
      apply orb_false_iff in H. apply H.
    + constructor; assumption.
Qed.

Lemma empty_false (df : DataFrame) :
  empty df = false -> data df <> [] /\ index df <> [].
Proof.
  unfold empty. destruct (data df), (index df); try discriminate.
  intros _. split; discriminate.
Qed.

Lemma drop_duplicates_rows (df : DataFrame) :
  aligned df ->
  empty df = false ->
  rows (drop_duplicates df)
  = mask_filter (map negb (duplicated_rows [] (rows df))) (rows df).
Proof.
  intros Hal E. unfold drop_duplicates, duplicated. rewrite E.
  apply getitem_mask_rows; [exact Hal|].
  rewrite length_map, duplicated_rows_length. apply rows_length.
Qed.

(** X1.  In a table that has at least one column and a value per row in
    every column, no two rows are equal after Remove Duplicates (missing
    values counting as equal to each other, numbers compared as numbers). *)
Theorem drop_duplicates_leaves_no_duplicates (df : DataFrame) :
  aligned df ->
  data df <> [] ->
  ForallOrdPairs (fun r r' => row_eqb r' r = false) (rows (drop_duplicates df)).
Proof.
  intros Hal Hcols. destruct (empty df) eqn:E.
  - unfold drop_duplicates. rewrite E.
    assert (Hidx : index df = []).
    { unfold empty in E. destruct (data df); [contradiction|].
      destruct (index df); [reflexivity|discriminate]. }
    unfold rows. rewrite Hidx. constructor.
  - rewrite (drop_duplicates_rows df Hal E). apply kept_rows_distinct.
Qed.

Lemma drop_duplicates_leaves_no_duplicates_witness :
  ForallOrdPairs (fun r r' => row_eqb r' r = false)
    (rows (drop_duplicates Examples.sales_parsed)).
Proof.
  apply (drop_duplicates_leaves_no_duplicates Examples.sales_parsed).
  - repeat constructor.
  - discriminate.
Defined.

Lemma kept_rows_cover (rs : list row) :
  forall seen r,
    In r rs ->
    (exists r', In r' (mask_filter (map negb (duplicated_rows seen rs)) rs)
                /\ row_eqb r r' = true)
    \/ existsb (row_eqb r) seen = true.
Proof.
  induction rs as [|x rs IH]; intros seen r Hin; [contradiction|].
  cbn [duplicated_rows map mask_filter].
  destruct Hin as [->|Hin].
  - destruct (existsb (row_eqb r) seen) eqn:E; cbn [negb]; [right; reflexivity|].
    left. exists r. split; [left; reflexivity|apply row_eqb_refl].
  - destruct (IH (x :: seen) r Hin) as [[r' [Hr' Heq]]|Hseen].
    + left. exists r'. split; [|exact Heq].
      destruct (existsb (row_eqb x) seen); cbn [negb]; [exact Hr'|right; exact Hr'].
    + cbn [existsb] in Hseen. apply orb_true_iff in Hseen.
      destruct Hseen as [Hx|Hseen]; [|right; exact Hseen].
      destruct (existsb (row_eqb x) seen) eqn:E; cbn [negb].
      * right. apply existsb_exists in E. destruct E as [s [Hs Hxs]].
        apply existsb_exists. exists s. split; [exact Hs|].
        apply (row_eqb_trans r x s Hx Hxs).
      * left. exists x. split; [left; reflexivity|exact Hx].
Qed.

(** X2.  Remove Duplicates loses no row value: every row of the table is
    equal to a row that remains. *)
Theorem drop_duplicates_keeps_one_of_each (df : DataFrame) (r : row) :
  aligned df ->
  In r (rows df) ->
  exists r', In r' (rows (drop_duplicates df)) /\ row_eqb r r' = true.
Proof.
  intros Hal Hin. destruct (empty df) eqn:E.
  - unfold drop_duplicates. rewrite E. exists r. split; [exact Hin|apply row_eqb_refl].
  - rewrite (drop_duplicates_rows df Hal E).
    destruct (kept_rows_cover (rows df) [] r Hin) as [H|H]; [exact H|discriminate H].
Qed.

Lemma drop_duplicates_keeps_one_of_each_witness :
  exists r',
    In r' (rows (drop_duplicates Examples.sales_parsed))
    /\ row_eqb [Int 1; Num 10] r' = true.
Proof.
  apply (drop_duplicates_keeps_one_of_each Examples.sales_parsed [Int 1; Num 10]).
  - repeat constructor.
  - right. right. left. reflexivity.
Defined.

Lemma mask_filter_shorter (A : Type) (mask : list bool) :
  forall xs : list A,
    (List.length (mask_filter mask xs) <= List.length xs)%nat.
Proof.
  induction mask as [|b mask IH]; intros [|x xs]; cbn [mask_filter List.length];
    try lia.
  specialize (IH xs). destruct b; cbn [List.length]; lia.
Qed.

(** X3.  Remove Duplicates never adds a row, and a table in which no row
    is marked as a duplicate is returned as it is. *)
Theorem drop_duplicates_row_count (df : DataFrame) :
  aligned df ->
  (List.length (index (drop_duplicates df)) <= List.length (index df))%nat
  /\ (Forall (fun b => b = false) (duplicated df) -> drop_duplicates df = df).
Proof.
  intros Hal. unfold drop_duplicates. destruct (empty df) eqn:E.
  - split; [apply le_n|reflexivity].
  - split; [apply mask_filter_shorter|].
    intros Hnone. apply getitem_mask_all_true; [exact Hal| |].
    + apply Forall_map. eapply Forall_impl; [|exact Hnone].
      intros b ->. reflexivity.
    + rewrite length_map. unfold duplicated. rewrite E, duplicated_rows_length,
        rows_length. apply le_n.
Qed.

Lemma drop_duplicates_row_count_witness :
  (List.length (index (drop_duplicates Examples.sales_deduplicated))
   <= List.length (index Examples.sales_deduplicated))%nat
  /\ (Forall (fun b => b = false) (duplicated Examples.sales_deduplicated) ->
      drop_duplicates Examples.sales_deduplicated = Examples.sales_deduplicated).
Proof.
  apply (drop_duplicates_row_count Examples.sales_deduplicated).
  repeat constructor.
Defined.


(** ** Fill Missing (Mean), twice *)

Lemma fill_without_missing (v : cell) (xs : list cell) :
  filter isna xs = [] -> map (fill_cell v) xs = xs.
Proof.
  induction xs as [|c xs IH]; [reflexivity|].
  destruct c; cbn; intros H; try discriminate; rewrite (IH H); reflexivity.
Qed.

(** After one fill a numeric column has no missing entry left, or its mean
    is the missing value again: a second fill changes nothing. *)
Lemma fill_column_twice (s : Series) :
  App.fill_column (App.fill_column s) = App.fill_column s.
Proof.
  unfold App.fill_column. destruct (is_number (dtype s)) eqn:E; [|rewrite E; reflexivity].
  cbn [name dtype values]. rewrite E.
  destruct (mean_cases (values s)) as [Hm|[m Hm]]; rewrite Hm.
  - rewrite fill_with_missing, Hm, fill_with_missing. reflexivity.
  - f_equal. apply fill_without_missing. apply filled_has_no_missing.
Qed.

(** X6.  Fill Missing (Mean) is idempotent: on a table with unique labels
    a second fill returns the table the first fill returned. *)
Theorem fill_missing_mean_idempotent (df df' : DataFrame) :
  unique_columns df ->
  App.fill_missing_mean df = Ok df' ->
  App.fill_missing_mean df' = Ok df'.
Proof.
  intros Hnd Hfill. rewrite (fill_missing_mean_by_column df Hnd) in Hfill.
  injection Hfill as <-.
  rewrite fill_missing_mean_by_column.
  - cbn [index data]. rewrite map_map. f_equal. f_equal.
    apply map_ext. intros s. apply fill_column_twice.
  - unfold unique_columns, columns in *. cbn [data]. rewrite map_map.
    rewrite (map_ext _ name fill_column_name). exact Hnd.
Qed.

Lemma fill_missing_mean_idempotent_witness :
  App.fill_missing_mean
    (mkDataFrame [0; 1; 2]%nat
       [mkSeries "id" int64 [Int 1; Int 2; Int 1];
        mkSeries "value" float64 [Num 10; Num 10; Num 10]])
  = Ok (mkDataFrame [0; 1; 2]%nat
          [mkSeries "id" int64 [Int 1; Int 2; Int 1];
           mkSeries "value" float64 [Num 10; Num 10; Num 10]]).
Proof.
  apply (fill_missing_mean_idempotent Examples.sales_parsed).
  - unfold unique_columns. simpl.
    repeat constructor; simpl; intuition discriminate.
  - reflexivity.
Defined.


(* ================================================================== *)
(** * Further properties of the script *)
(* ================================================================== *)

(** ** The selection *)

Lemma get_columns_from (df : DataFrame) (keys : list string) :
  forall ss,
    get_columns df keys = Ok ss ->
    map name ss = keys /\ Forall (fun s => In s (data df)) ss.
Proof.
  induction keys as [|k keys IH]; intros ss H.
  - injection H as <-. split; constructor.
  - cbn [get_columns] in H. destruct (get_column df k) as [s|] eqn:Es; [|discriminate].
    destruct (get_columns df keys) as [ss'|e]; [|discriminate].
    injection H as <-. destruct (IH ss' eq_refl) as [Hn Hin].
    destruct (get_column_name df k s Es) as [Hk Hs].
    split; [cbn [map]; rewrite Hk, Hn; reflexivity|constructor; assumption].
Qed.

(** X8.  With the multiselect left at its default (all the columns) the
    projection returns the parsed table itself, when its labels are
    unique. *)
Theorem default_selection_keeps_table (w : App.Widgets) (df : DataFrame) :
  App.selected_columns w = None ->
  unique_columns df ->
  snd (App.column_selection w df) = App.Done df.
Proof.
  intros Hsel Hnd. unfold App.column_selection, App.multiselect, getitem, columns.
  rewrite Hsel, get_columns_map.
  - destruct df. reflexivity.
  - intros s Hs. apply find_unique; assumption.
Qed.

Lemma default_selection_keeps_table_witness :
  snd (App.column_selection (Examples.untouched Examples.sales_csv)
         Examples.sales_parsed)
  = App.Done Examples.sales_parsed.
Proof.
  apply (default_selection_keeps_table (Examples.untouched Examples.sales_csv)
           Examples.sales_parsed).
  - reflexivity.
  - unfold unique_columns. simpl.
    repeat constructor; simpl; intuition discriminate.
Defined.

(** ** The invariants of the working table *)

Lemma getitem_invariants (df df' : DataFrame) (keys : list string) :
  aligned df ->
  NoDup keys ->
  getitem df keys = Ok df' ->
  aligned df' /\ unique_columns df' /\ columns df' = keys.
Proof.
  intros Hal Hnd H. unfold getitem in H.
  destruct (get_columns df keys) as [ss|e] eqn:E; [|discriminate].
  injection H as <-. destruct (get_columns_from df keys ss E) as [Hn Hin].
  unfold aligned, unique_columns, columns. cbn [index data]. split; [|split].
  - eapply Forall_impl; [|exact Hin]. intros s Hs.
    unfold aligned in Hal. rewrite Forall_forall in Hal. apply Hal. exact Hs.
  - rewrite Hn. exact Hnd.
  - exact Hn.
Qed.

Lemma drop_duplicates_invariants (df : DataFrame) :
  aligned df ->
  aligned (drop_duplicates df) /\ columns (drop_duplicates df) = columns df.
Proof.
  intros Hal. unfold drop_duplicates. destruct (empty df); [split; [exact Hal|reflexivity]|].
  split; [apply getitem_mask_aligned; exact Hal|].
  unfold columns, getitem_mask. cbn [data]. rewrite map_map. reflexivity.
Qed.

Lemma fill_column_length (s : Series) :
  List.length (values (App.fill_column s)) = List.length (values s).
Proof.
  unfold App.fill_column. destruct (is_number (dtype s)); [|reflexivity].
  cbn [values]. apply length_map.
Qed.

Lemma fill_missing_mean_invariants (df df' : DataFrame) :
  aligned df ->
  unique_columns df ->
  App.fill_missing_mean df = Ok df' ->
  aligned df' /\ columns df' = columns df.
Proof.
  intros Hal Hnd H. rewrite (fill_missing_mean_by_column df Hnd) in H.
  injection H as <-. unfold aligned, columns in *. cbn [index data]. split.
  - apply Forall_map. eapply Forall_impl; [|exact Hal].
    intros s Hs. rewrite fill_column_length. exact Hs.
  - rewrite map_map. apply map_ext. intros s. apply fill_column_name.
Qed.

Lemma cleaning_invariants (w : App.Widgets) (df table : DataFrame) :
  aligned df ->
  unique_columns df ->
  snd (App.cleaning w df) = App.Done table ->
  aligned table /\ columns table = columns df.
Proof.
  intros Hal Hnd. unfold App.cleaning.
  destruct (drop_duplicates_invariants df Hal) as [Hal1 Hc1].
  assert (Hnd1 : unique_columns (drop_duplicates df)).
  { unfold unique_columns. rewrite Hc1. exact Hnd. }
  destruct (App.enable_cleaning w); [|cbn; intros H; injection H as <-; split;
                                       [exact Hal|reflexivity]].
  destruct (App.remove_duplicates_clicked w), (App.fill_missing_clicked w); cbn.
  - destruct (App.fill_missing_mean (drop_duplicates df)) as [d|e] eqn:E; cbn;
      [|discriminate].
    intros H. injection H as <-.
    destruct (fill_missing_mean_invariants _ d Hal1 Hnd1 E) as [Ha Hc].
    split; [exact Ha|rewrite Hc; exact Hc1].
  - intros H. injection H as <-. split; assumption.
  - destruct (App.fill_missing_mean df) as [d|e] eqn:E; cbn; [|discriminate].
    intros H. injection H as <-.
    apply (fill_missing_mean_invariants df d Hal Hnd E).
  - intros H. injection H as <-. split; [exact Hal|reflexivity].
Qed.

(** X9.  The invariants of the working table hold through the pipeline:
    when the parsed table has a value per row in every column and the
    selection is a list of distinct labels, the table that the run works
    on, after projection and whatever cleaning was clicked, still has a
    value per row in every column, has unique labels, and its labels are
    the selection in its order. *)
Theorem working_table_invariants (pd : App.Backend) (w : App.Widgets)
    (f : App.UploadedFile) (df0 table : DataFrame) :
  App.ingest pd f = ([], App.Done df0) ->
  aligned df0 ->
  NoDup (App.multiselect w df0) ->
  snd (App.working_table pd w f) = App.Done table ->
  aligned table
  /\ unique_columns table
  /\ columns table = App.multiselect w df0.
Proof.
  intros Hi Hal Hnd Ht.
  destruct (getitem df0 (App.multiselect w df0)) as [df|e] eqn:Esel.
  - rewrite (ingest_metadata_selection pd w f df0 df Hi Esel) in Ht.
    destruct (getitem_invariants df0 df _ Hal Hnd Esel) as [Ha [Hu Hc]].
    destruct (cleaning_invariants w df table Ha Hu Ht) as [Hat Hct].
    split; [exact Hat|]. unfold unique_columns. rewrite Hct, Hc.
    split; [exact Hnd|reflexivity].
  - exfalso. unfold App.working_table in Ht. rewrite Hi in Ht.
    unfold App.bind at 1 in Ht. unfold App.metadata, App.column_selection in Ht.
    cbn [App.bind App.emit app] in Ht. rewrite Esel in Ht. discriminate Ht.
Qed.

Lemma working_table_invariants_witness :
  aligned Examples.sales_deduplicated
  /\ unique_columns Examples.sales_deduplicated
  /\ columns Examples.sales_deduplicated
     = App.multiselect Examples.click_remove_duplicates Examples.sales_parsed.
Proof.
  apply (working_table_invariants Examples.pd Examples.click_remove_duplicates
           Examples.sales_csv Examples.sales_parsed Examples.sales_deduplicated).
  - reflexivity.
  - repeat constructor.
  - simpl. repeat constructor; simpl; intuition discriminate.
  - reflexivity.
Defined.


(** ** Failures of the readers *)

(** X10.  An exception of the reader chosen by the extension is not
    caught: the run ends with it right after the page header, before the
    file name, the size or any table is shown. *)
Theorem parse_failure_halts (pd : App.Backend) (w : App.Widgets)
    (f : App.UploadedFile) (e : exn) :
  App.uploaded_file w = Some f ->
  (App.file_extension f = ".csv" /\ App.read_csv pd (App.getvalue f) = Raise e)
  \/ (App.file_extension f = ".xlsx" /\ App.read_excel pd (App.getvalue f) = Raise e) ->
  App.run pd w
  = ([App.st_title "📊 Data Sweeper - Intelligent Data Processor";
      App.st_write "Easily clean, analyze, and transform your data files with automated features."],
     App.Failed e).
Proof.
  intros Hf H.
  assert (Hi : App.ingest pd f = ([], App.Failed e)).
  { unfold App.ingest. destruct H as [[Hext Hr]|[Hext Hr]]; rewrite Hext, Hr; reflexivity. }
  unfold App.run, App.working_table. rewrite Hf, Hi. reflexivity.
Qed.

Lemma parse_failure_halts_witness :
  App.run Examples.pd
    (Examples.untouched
       (App.mkUploadedFile "open.csv" 4 (String QUOTE "a,b")))
  = ([App.st_title "📊 Data Sweeper - Intelligent Data Processor";
      App.st_write "Easily clean, analyze, and transform your data files with automated features."],
     App.Failed (ParserError "Error tokenizing data. C error: EOF inside string")).
Proof.
  apply (parse_failure_halts Examples.pd
           (Examples.untouched (App.mkUploadedFile "open.csv" 4 (String QUOTE "a,b")))
           (App.mkUploadedFile "open.csv" 4 (String QUOTE "a,b"))).
  - reflexivity.
  - left. split; reflexivity.
Defined.

(** ** What [read_csv] returns *)

(** Over blanks and line ends the tokenizer stays between lines and
    collects nothing. *)
Lemma step_over_blank (s : state) (w : string) (c : ascii) :
  s = START_RECORD \/ s = WHITESPACE_LINE \/ s = EAT_CRNL_NOP ->
  is_blank c || Ascii.eqb c LF || Ascii.eqb c CR = true ->
  exists s' w',
    step (mkParser s w [] []) c = mkParser s' w' [] []
    /\ (s' = START_RECORD \/ s' = WHITESPACE_LINE \/ s' = EAT_CRNL_NOP).
Proof.
  intros Hs Hc.
  destruct (Ascii.eqb c LF) eqn:El.
  - destruct Hs as [->|[->| ->]]; cbn [step st]; unfold step_start_record;
      rewrite ?El; eexists; eexists; (split; [reflexivity|]); auto.
  - destruct (Ascii.eqb c CR) eqn:Er.
    + destruct Hs as [->|[->| ->]]; cbn [step st]; unfold step_start_record;
        rewrite ?El, ?Er; eexists; eexists; (split; [reflexivity|]); auto.
    + rewrite !orb_false_r in Hc.
      destruct Hs as [->|[->| ->]]; cbn [step st]; unfold step_start_record;
        rewrite ?El, ?Er, ?Hc; eexists; eexists; (split; [reflexivity|]); auto.
Qed.

Lemma feed_over_blank (text : string) :
  forall s w,
    s = START_RECORD \/ s = WHITESPACE_LINE \/ s = EAT_CRNL_NOP ->
    forallb (fun c => is_blank c || Ascii.eqb c LF || Ascii.eqb c CR)
      (list_ascii_of_string text) = true ->
    exists s' w',
      feed (mkParser s w [] []) text = mkParser s' w' [] []
      /\ (s' = START_RECORD \/ s' = WHITESPACE_LINE \/ s' = EAT_CRNL_NOP).
Proof.
  induction text as [|c text IH]; intros s w Hs H.
  - exists s, w. split; [reflexivity|exact Hs].
  - cbn [list_ascii_of_string forallb] in H. apply andb_true_iff in H.
    destruct H as [Hc H].
    destruct (step_over_blank s w c Hs Hc) as [s1 [w1 [E1 Hs1]]].
    cbn [feed]. rewrite E1. apply IH; assumption.
Qed.

Lemma read_csv_of_blank (text : string) :
  forallb (fun c => is_blank c || Ascii.eqb c LF || Ascii.eqb c CR)
    (list_ascii_of_string text) = true ->
  read_csv text = Raise (EmptyDataError "No columns to parse from file").
Proof.
  intros H. unfold read_csv, tokenize.
  destruct (feed_over_blank text START_RECORD EmptyString (or_introl eq_refl) H)
    as [s' [w' [E Hs]]].
  rewrite E. destruct Hs as [->|[->| ->]]; reflexivity.
Qed.

(** X13.  A CSV file that holds nothing but blanks and line ends (the
    empty file included) has no header line: [read_csv] raises
    [EmptyDataError], and with it the run of the script ends, since the
    script does not catch it. *)
Theorem blank_csv_is_refused (pd : App.Backend) (w : App.Widgets)
    (f : App.UploadedFile) :
  App.read_csv pd = read_csv ->
  App.uploaded_file w = Some f ->
  App.file_extension f = ".csv" ->
  forallb (fun c => is_blank c || Ascii.eqb c LF || Ascii.eqb c CR)
    (list_ascii_of_string (App.getvalue f)) = true ->
  read_csv (App.getvalue f) = Raise (EmptyDataError "No columns to parse from file")
  /\ snd (App.run pd w) = App.Failed (EmptyDataError "No columns to parse from file").
Proof.
  intros Hpd Hf Hext Hblank.
  pose proof (read_csv_of_blank _ Hblank) as Hr. split; [exact Hr|].
  unfold App.run, App.working_table, App.ingest. rewrite Hf, Hext, Hpd, Hr.
  reflexivity.
Qed.

Lemma blank_csv_is_refused_witness :
  read_csv (String LF (String SPACE (String TAB (String CR (String LF EmptyString)))))
  = Raise (EmptyDataError "No columns to parse from file")
  /\ snd (App.run Examples.pd
            (Examples.untouched
               (App.mkUploadedFile "empty.csv" 5
                  (String LF (String SPACE (String TAB (String CR (String LF EmptyString))))))))
     = App.Failed (EmptyDataError "No columns to parse from file").
Proof.
  apply (blank_csv_is_refused Examples.pd
           (Examples.untouched
              (App.mkUploadedFile "empty.csv" 5
                 (String LF (String SPACE (String TAB (String CR (String LF EmptyString)))))))
           (App.mkUploadedFile "empty.csv" 5
              (String LF (String SPACE (String TAB (String CR (String LF EmptyString))))))).
  - reflexivity.
  - reflexivity.
  - reflexivity.
  - reflexivity.
Defined.

(* ================================================================== *)
(** * Further properties of the extension of the file name *)
(* ================================================================== *)

Lemma lower_length (s : string) : String.length (PyStr.lower s) = String.length s.
Proof. induction s as [|c s IH]; [reflexivity|]. cbn. rewrite IH. reflexivity. Qed.

Lemma lower_ascii_dot (d : ascii) :
  Ascii.eqb (PyStr.lower_ascii d) "."%char = Ascii.eqb d "."%char.
Proof.
  destruct d as [b0 b1 b2 b3 b4 b5 b6 b7].
  destruct b0, b1, b2, b3, b4, b5, b6, b7; vm_compute; reflexivity.
Qed.

Lemma lower_ascii_slash (d : ascii) :
  Ascii.eqb (PyStr.lower_ascii d) "/"%char = Ascii.eqb d "/"%char.
Proof.
  destruct d as [b0 b1 b2 b3 b4 b5 b6 b7].
  destruct b0, b1, b2, b3, b4, b5, b6, b7; vm_compute; reflexivity.
Qed.

Lemma rfind_from_lower (c : ascii) (s : string) :
  (forall d, Ascii.eqb (PyStr.lower_ascii d) c = Ascii.eqb d c) ->
  forall i, PyStr.rfind_from c i (PyStr.lower s) = PyStr.rfind_from c i s.
Proof.
  intros Hc. induction s as [|d s IH]; intros i; [reflexivity|].
  cbn [PyStr.lower PyStr.rfind_from]. rewrite IH, Hc. reflexivity.
Qed.

Lemma substring_lower (s : string) :
  forall n m, substring n m (PyStr.lower s) = PyStr.lower (substring n m s).
Proof.
  induction s as [|c s IH]; intros n m.
  - destruct n, m; reflexivity.
  - destruct n as [|n].
    + destruct m as [|m]; [reflexivity|].
      cbn [PyStr.lower substring]. rewrite IH. reflexivity.
    + cbn [PyStr.lower substring]. apply IH.
Qed.

Lemma slice_lower (p : string) (a b : Z) :
  PyStr.slice (PyStr.lower p) a b = PyStr.lower (PyStr.slice p a b).
Proof. unfold PyStr.slice. apply substring_lower. Qed.

Lemma eqb_lower_dot (s : string) :
  String.eqb (PyStr.lower s) "." = String.eqb s ".".
Proof.
  destruct s as [|c [|c' s]]; [reflexivity| |].
  - cbn [PyStr.lower String.eqb]. rewrite lower_ascii_dot. reflexivity.
  - cbn [PyStr.lower String.eqb]. rewrite lower_ascii_dot.
    destruct (Ascii.eqb c "."); reflexivity.
Qed.

Lemma has_non_dot_lower (p : string) (fuel : nat) :
  forall i, PyStr.has_non_dot (PyStr.lower p) i fuel = PyStr.has_non_dot p i fuel.
Proof.
  induction fuel as [|fuel IH]; intros i; [reflexivity|].
  cbn [PyStr.has_non_dot]. rewrite slice_lower, eqb_lower_dot, IH. reflexivity.
Qed.

Lemma splitext_lower (p : string) :
  PyStr.splitext (PyStr.lower p)
  = (PyStr.lower (fst (PyStr.splitext p)), PyStr.lower (snd (PyStr.splitext p))).
Proof.
  unfold PyStr.splitext, PyStr.rfind.
  rewrite (rfind_from_lower "/"%char p lower_ascii_slash).
  rewrite (rfind_from_lower "."%char p lower_ascii_dot).
  rewrite has_non_dot_lower.
  match goal with |- context [if ?b then _ else _] => destruct b end;
    cbn [fst snd]; [|reflexivity].
  unfold PyStr.slice_to, PyStr.slice_from.
  rewrite !slice_lower, lower_length. reflexivity.
Qed.

(** X15.  The format is detected without regard to case: two file names
    that differ only in the case of their letters have the same extension
    for the script, so they are sent to the same reader or both refused. *)
Theorem file_extension_ignores_case (f g : App.UploadedFile) :
  PyStr.lower (App.name f) = PyStr.lower (App.name g) ->
  App.file_extension f = App.file_extension g.
Proof.
  intros H. unfold App.file_extension.
  assert (E : forall p, PyStr.lower (snd (PyStr.splitext p))
                        = snd (PyStr.splitext (PyStr.lower p))).
  { intros p. rewrite splitext_lower. reflexivity. }
  rewrite !E, H. reflexivity.
Qed.

Lemma file_extension_ignores_case_witness :
  App.file_extension (App.mkUploadedFile "Sales.Q1.CSV" 0 EmptyString)
  = App.file_extension (App.mkUploadedFile "sales.q1.csv" 0 EmptyString).
Proof.
  apply (file_extension_ignores_case
           (App.mkUploadedFile "Sales.Q1.CSV" 0 EmptyString)
           (App.mkUploadedFile "sales.q1.csv" 0 EmptyString)).
  reflexivity.
Defined.


(** ** The two parts of a split name *)

Lemma rfind_from_range (c : ascii) (s : string) :
  forall i,
    PyStr.rfind_from c i s = (-1)%Z
    \/ (i <= PyStr.rfind_from c i s < i + Z.of_nat (String.length s))%Z.
Proof.
  induction s as [|d s IH]; intros i; [left; reflexivity|].
  cbn [PyStr.rfind_from String.length]. specialize (IH (i + 1)%Z).
  destruct (0 <=? PyStr.rfind_from c (i + 1) s)%Z eqn:E.
  - apply Z.leb_le in E. right. lia.
  - destruct (Ascii.eqb d c); [right; lia|left; reflexivity].
Qed.

(** No occurrence of [c] lies after the index that [rfind] returns. *)
Lemma rfind_from_last (c : ascii) (s : string) :
  forall i j,
    (0 <= i)%Z ->
    get j s = Some c ->
    (i + Z.of_nat j <= PyStr.rfind_from c i s)%Z.
Proof.
  induction s as [|d s IH]; intros i j Hi Hj; [discriminate|].
  cbn [PyStr.rfind_from]. destruct j as [|j].
  - cbn [get] in Hj. injection Hj as ->. rewrite Ascii.eqb_refl.
    destruct (rfind_from_range c s (i + 1)) as [H|H];
      destruct (0 <=? PyStr.rfind_from c (i + 1) s)%Z eqn:E;
      try apply Z.leb_le in E; lia.
  - cbn [get] in Hj. assert (Hi' : (0 <= i + 1)%Z) by lia.
    pose proof (IH (i + 1)%Z j Hi' Hj) as H.
    destruct (0 <=? PyStr.rfind_from c (i + 1) s)%Z eqn:E; [lia|].
    apply Z.leb_gt in E. lia.
Qed.

(** The index that [rfind] returns holds [c]. *)
Lemma rfind_from_found (c : ascii) (s : string) :
  forall i,
    (0 <= i)%Z ->
    (0 <= PyStr.rfind_from c i s)%Z ->
    get (Z.to_nat (PyStr.rfind_from c i s - i)) s = Some c.
Proof.
  induction s as [|d s IH]; intros i Hi Hr; [cbn in Hr; lia|].
  cbn [PyStr.rfind_from] in *.
  destruct (0 <=? PyStr.rfind_from c (i + 1) s)%Z eqn:E.
  - apply Z.leb_le in E.
    destruct (rfind_from_range c s (i + 1)) as [H|H]; [lia|].
    replace (Z.to_nat (PyStr.rfind_from c (i + 1) s - i))
      with (S (Z.to_nat (PyStr.rfind_from c (i + 1) s - (i + 1)))) by lia.
    cbn [get]. apply IH; lia.
  - destruct (Ascii.eqb d c) eqn:Ed; [|lia].
    apply Ascii.eqb_eq in Ed. subst d. rewrite Z.sub_diag. reflexivity.
Qed.

Lemma substring_whole (s : string) : substring 0 (String.length s) s = s.
Proof. induction s as [|c s IH]; [reflexivity|]. cbn. rewrite IH. reflexivity. Qed.

Lemma substring_cut (s : string) :
  forall n,
    (n <= String.length s)%nat ->
    (substring 0 n s ++ substring n (String.length s - n) s)%string = s.
Proof.
  induction s as [|c s IH]; intros n Hn.
  - destruct n; [reflexivity|cbn in Hn; lia].
  - destruct n as [|n].
    + cbn [substring append]. rewrite Nat.sub_0_r.
      change (substring 0 (String.length (String c s)) (String c s) = String c s).
      apply substring_whole.
    + cbn [substring String.length append Nat.sub]. rewrite IH; [reflexivity|].
      cbn in Hn. lia.
Qed.

Lemma substring_from_char (s : string) (c : ascii) :
  forall n,
    get n s = Some c ->
    substring n (String.length s - n) s
    = String c (substring (S n) (String.length s - S n) s).
Proof.
  induction s as [|d s IH]; intros n Hn; [discriminate|].
  destruct n as [|n].
  - cbn [get] in Hn. injection Hn as ->.
    cbn [substring String.length Nat.sub]. rewrite Nat.sub_0_r. reflexivity.
  - cbn [get] in Hn. cbn [substring String.length Nat.sub]. apply IH. exact Hn.
Qed.

(** A character of [s[n:n+m]] is a character of [s], [n] places on. *)
Lemma get_substring (s : string) (n m j : nat) (x : ascii) :
  get j (substring n m s) = Some x -> get (j + n) s = Some x.
Proof.
  intros H. destruct (Nat.lt_ge_cases j m) as [Hlt|Hge].
  - rewrite <- (substring_correct1 s n m j Hlt). exact H.
  - rewrite (substring_correct2 s n m j Hge) in H. discriminate.
Qed.

(** X16.  The two parts that [os.path.splitext] returns make up the
    name again, and the extension is either empty or a dot followed by
    characters among which there is no dot and no slash. *)
Theorem splitext_parts (p : string) :
  (fst (PyStr.splitext p) ++ snd (PyStr.splitext p))%string = p
  /\ (snd (PyStr.splitext p) = EmptyString
      \/ exists rest,
           snd (PyStr.splitext p) = String "." rest
           /\ forall j, get j rest <> Some "."%char /\ get j rest <> Some "/"%char).
Proof.
  unfold PyStr.splitext.
  set (sepIndex := PyStr.rfind "/" p). set (dotIndex := PyStr.rfind "." p).
  destruct ((sepIndex <? dotIndex)%Z
            && PyStr.has_non_dot p (sepIndex + 1)
                 (Z.to_nat (dotIndex - (sepIndex + 1)))) eqn:E; cbn [fst snd].
  - apply andb_true_iff in E. destruct E as [E _]. apply Z.ltb_lt in E.
    assert (Hsep : (-1 <= sepIndex)%Z).
    { unfold sepIndex, PyStr.rfind.
      destruct (rfind_from_range "/" p 0) as [H|H]; lia. }
    assert (Hdot : (0 <= dotIndex < Z.of_nat (String.length p))%Z).
    { unfold dotIndex, PyStr.rfind in *.
      destruct (rfind_from_range "." p 0) as [H|H]; lia. }
    assert (Hget : get (Z.to_nat dotIndex) p = Some "."%char).
    { unfold dotIndex, PyStr.rfind in *.
      pose proof (rfind_from_found "." p 0 (Z.le_refl 0)) as H.
      rewrite Z.sub_0_r in H. apply H. lia. }
    unfold PyStr.slice_to, PyStr.slice_from, PyStr.slice.
    replace (Z.to_nat 0) with 0%nat by reflexivity.
    replace (Z.to_nat (dotIndex - 0)) with (Z.to_nat dotIndex) by lia.
    replace (Z.to_nat (Z.of_nat (String.length p) - dotIndex))
      with (String.length p - Z.to_nat dotIndex)%nat by lia.
    split.
    + apply substring_cut. lia.
    + right. rewrite (substring_from_char p "." _ Hget). eexists. split; [reflexivity|].
      intros j. split; intros Hj; apply get_substring in Hj.
      * pose proof (rfind_from_last "." p 0 _ (Z.le_refl 0) Hj) as H.
        fold (PyStr.rfind "." p) in H. fold dotIndex in H. lia.
      * pose proof (rfind_from_last "/" p 0 _ (Z.le_refl 0) Hj) as H.
        fold (PyStr.rfind "/" p) in H. fold sepIndex in H. lia.
  - split; [|left; reflexivity].
    clear. induction p as [|c p IH]; [reflexivity|]. cbn. rewrite IH. reflexivity.
Qed.


(* ================================================================== *)
(** * Further properties of the file size shown *)
(* ================================================================== *)

(** X18.  The size is shown in KB rounded to the nearest hundredth: the
    number of hundredths shown is within half a hundredth of
    [size / 1024], a tie goes to the even hundredth, and a whole number
    of KB is shown with [.00]. *)
Theorem file_size_rounding (size : nat) :
  (1024 * App.hundredths size <= 100 * size + 512)%nat
  /\ (100 * size <= 1024 * App.hundredths size + 512)%nat
  /\ ((size * 100) mod 1024 = 512%nat -> Nat.even (App.hundredths size) = true)
  /\ App.format_kb (1024 * size) = (App.digits size ++ ".00")%string.
Proof.
  assert (Hdm : (size * 100 = 1024 * (size * 100 / 1024) + (size * 100) mod 1024)%nat)
    by (apply Nat.div_mod_eq).
  assert (Hr : ((size * 100) mod 1024 < 1024)%nat)
    by (apply Nat.mod_upper_bound; discriminate).
  unfold App.hundredths.
  set (q := (size * 100 / 1024)%nat) in *. set (r := ((size * 100) mod 1024)%nat) in *.
  assert (Hcases :
    (1024 * (if (r <? 512)%nat then q
             else if (512 <? r)%nat then S q
             else if Nat.even q then q else S q) <= 100 * size + 512)%nat
    /\ (100 * size
        <= 1024 * (if (r <? 512)%nat then q
                   else if (512 <? r)%nat then S q
                   else if Nat.even q then q else S q) + 512)%nat
    /\ (r = 512%nat ->
        Nat.even (if (r <? 512)%nat then q
                  else if (512 <? r)%nat then S q
                  else if Nat.even q then q else S q) = true)).
  { destruct (r <? 512)%nat eqn:E1.
    - apply Nat.ltb_lt in E1. repeat split; lia.
    - apply Nat.ltb_ge in E1. destruct (512 <? r)%nat eqn:E2.
      + apply Nat.ltb_lt in E2. repeat split; lia.
      + apply Nat.ltb_ge in E2. destruct (Nat.even q) eqn:E3.
        * repeat split; try lia. intros _. exact E3.
        * repeat split; try lia. intros _.
          rewrite Nat.even_succ, <- Nat.negb_even, E3. reflexivity. }
  destruct Hcases as [H1 [H2 H3]].
  split; [exact H1|]. split; [exact H2|]. split; [exact H3|].
  clear. unfold App.format_kb, App.hundredths.
  replace (1024 * size * 100)%nat with ((size * 100) * 1024)%nat by lia.
  rewrite Nat.div_mul, Nat.Div0.mod_mul by discriminate.
  cbn [Nat.ltb Nat.leb]. rewrite Nat.div_mul, Nat.Div0.mod_mul by discriminate.
  reflexivity.
Qed.

(* ================================================================== *)
(** * Cleaning operations, one after the other *)
(* ================================================================== *)

Lemma mask_filter_missing (mask : list bool) :
  forall xs : list cell,
    (List.length (filter isna (mask_filter mask xs))
     <= List.length (filter isna xs))%nat.
Proof.
  induction mask as [|b mask IH]; intros [|c xs]; cbn [mask_filter filter List.length];
    try lia.
  specialize (IH xs). destruct b; cbn [filter]; destruct (isna c);
    cbn [List.length]; lia.
Qed.

(** X19.  Remove Duplicates never adds a missing value to a column: in
    every column there are at most as many missing entries after the
    operation as before, so a column that Fill Missing (Mean) has
    completed stays complete. *)
Theorem drop_duplicates_adds_no_missing (df : DataFrame) :
  Forall2
    (fun s s' =>
       name s' = name s
       /\ (List.length (filter isna (values s'))
           <= List.length (filter isna (values s)))%nat)
    (data df) (data (drop_duplicates df)).
Proof.
  unfold drop_duplicates. destruct (empty df).
  - rewrite <- (map_id (data df)) at 2. apply Forall2_map_right.
    intros s _. split; [reflexivity|apply le_n].
  - unfold getitem_mask. cbn [data]. apply Forall2_map_right.
    intros s _. cbn [name values]. split; [reflexivity|apply mask_filter_missing].
Qed.
